(** * silkie: a shallow embedding of [silkie/silkie.py]

    The generator reads plain-text or Markdown files, renders each into an
    HTML document with yattag and writes it to [dist/<slug>.html].

    Python values are modelled as follows.
    - [str] is a sequence of Unicode code points, [list N].
    - The file system is a finite map from paths to the text of regular
      files; directories are implicit (a directory exists when a file lies
      under it).
    - Exceptions are values of [exn]; code that can raise returns [result],
      code that also touches the file system or the console runs in [M].
    - A yattag [Doc] is the list of nodes appended to it; [getvalue]
      concatenates their renderings. *)

From Stdlib Require Import Ascii String.
From stdpp Require Import base option list gmap.

Local Open Scope N_scope.
Local Open Scope list_scope.

(** ** Python strings *)

Abbreviation char := N.
Abbreviation str := (list N).

Definition nl : char := 10.

(** Literals: [lit] reads a Rocq string, taking backslash-n for U+000A. *)
Fixpoint unescape (esc : bool) (l : list ascii) : str :=
  match l with
  | [] => if esc then [92] else []
  | a :: l' =>
      if esc then
        if Ascii.eqb a "n" then nl :: unescape false l'
        else if Ascii.eqb a "\" then 92 :: unescape true l'
        else 92 :: N_of_ascii a :: unescape false l'
      else
        if Ascii.eqb a "\" then unescape true l'
        else N_of_ascii a :: unescape false l'
  end.

Definition lit (s : string) : str := unescape false (list_ascii_of_string s).
Arguments lit : simpl never.

(** [str.isspace] on one code point: the characters CPython's
    [_PyUnicode_IsWhitespace] accepts. *)
Definition isspace (c : char) : bool :=
  ((9 <=? c) && (c <=? 13)) || ((28 <=? c) && (c <=? 32))
  || (c =? 133) || (c =? 160) || (c =? 5760)
  || ((8192 <=? c) && (c <=? 8202))
  || (c =? 8232) || (c =? 8233) || (c =? 8239) || (c =? 8287) || (c =? 12288).

Fixpoint take_while {A} (p : A -> bool) (l : list A) : list A :=
  match l with
  | x :: l' => if p x then x :: take_while p l' else []
  | [] => []
  end.

Fixpoint drop_while {A} (p : A -> bool) (l : list A) : list A :=
  match l with
  | x :: l' => if p x then drop_while p l' else l
  | [] => []
  end.

(** [s.lstrip()], [s.rstrip()], [s.strip()] without arguments. *)
Definition lstrip (s : str) : str := drop_while isspace s.
Definition rstrip (s : str) : str := reverse (drop_while isspace (reverse s)).
Definition strip (s : str) : str := rstrip (lstrip s).

(** [s[lo:hi]] with step 1. A negative index counts from the end, then both
    are clamped to [0, len(s)] (PySlice_AdjustIndices). *)
Definition adjust_index (len i : Z) : Z :=
  let i := if (i <? 0)%Z then (i + len)%Z else i in
  if (i <? 0)%Z then 0%Z else if (len <? i)%Z then len else i.

Definition slice (s : str) (lo hi : Z) : str :=
  let len := Z.of_nat (length s) in
  let a := adjust_index len lo in
  let b := adjust_index len hi in
  take (Z.to_nat (b - a)) (drop (Z.to_nat a) s).

Definition startswith (p s : str) : bool := bool_decide (p `prefix_of` s).

(** [s.split(sep)] for a non-empty separator: leftmost non-overlapping
    occurrences. [skip] counts the characters of an occurrence still to be
    passed over, [cur] holds the current piece in reverse. *)
Fixpoint split_go (sep : str) (skip : nat) (cur : str) (s : str) : list str :=
  match s with
  | [] => [reverse cur]
  | c :: s' =>
      match skip with
      | S k => split_go sep k cur s'
      | O =>
          if startswith sep s
          then reverse cur :: split_go sep (length sep - 1) [] s'
          else split_go sep 0 (c :: cur) s'
      end
  end.

Definition split (sep s : str) : list str := split_go sep 0 [] s.

(** [s.replace(old, new)] for a one-character [old]. *)
Definition replace1 (old : char) (new : str) (s : str) : str :=
  s ≫= (fun c => if (c =? old) then new else [c]).

(** ** The fragment of [re] that [get_title] uses

    A pattern is a sequence of items; [Many1] is the greedy [+] applied to a
    character class. Without re.MULTILINE, [^] holds only at position 0 and
    [.] is every character but the line feed. *)

Inductive item :=
| Bol
| One (p : char -> bool)
| Many1 (p : char -> bool).

Definition dot (c : char) : bool := negb (c =? nl).
Definition is_chr (d : char) (c : char) : bool := (c =? d).

(** The greedy loop of [+]: the class matched [k] characters at the head of
    [s]; the rest of the pattern [cont] is tried after the longest run
    first, then after shorter ones, down to one character. *)
Fixpoint longest_first (cont : str -> option str) (s : str) (k : nat) : option str :=
  match k with
  | O => None
  | S k' =>
      match cont (drop k s) with
      | Some m => Some (take k s ++ m)
      | None => longest_first cont s k'
      end
  end.

(** Backtracking match of a pattern at the head of [s]; [at0] tells whether
    the head of [s] is position 0 of the subject. Returns group 0. *)
Fixpoint match_here (its : list item) (at0 : bool) (s : str) : option str :=
  match its with
  | [] => Some []
  | Bol :: r => if at0 then match_here r at0 s else None
  | One p :: r =>
      match s with
      | c :: s' => if p c then (cons c) <$> match_here r false s' else None
      | [] => None
      end
  | Many1 p :: r =>
      longest_first (match_here r false) s (length (take_while p s))
  end.

(** [re.compile(p).search(s)]: the first position where [p] matches. *)
Fixpoint search_from (its : list item) (at0 : bool) (s : str) : option str :=
  match match_here its at0 s with
  | Some m => Some m
  | None =>
      match s with
      | [] => None
      | _ :: s' => search_from its false s'
      end
  end.

Definition search (its : list item) (s : str) : option str :=
  search_from its true s.

(** r"^.+(\n\n\n)" *)
Definition title_re : list item :=
  [Bol; Many1 dot; One (is_chr nl); One (is_chr nl); One (is_chr nl)].

(** ** Exceptions and effects *)

Inductive exn_class :=
| FileNotFoundError | FileExistsError | PermissionError | OSError
| JSONDecodeError | ValueError | TypeError.

Record exn := Exn { exn_class_of : exn_class; exn_msg : str }.

(** [issubclass c d] on the builtin hierarchy: the three file errors derive
    from OSError, JSONDecodeError from ValueError. *)
Definition issubclass (c d : exn_class) : bool :=
  match c, d with
  | FileNotFoundError, (FileNotFoundError | OSError) => true
  | FileExistsError, (FileExistsError | OSError) => true
  | PermissionError, (PermissionError | OSError) => true
  | OSError, OSError => true
  | JSONDecodeError, (JSONDecodeError | ValueError) => true
  | ValueError, ValueError => true
  | TypeError, TypeError => true
  | _, _ => false
  end.

Definition isinstance (e : exn) (d : exn_class) : bool :=
  issubclass (exn_class_of e) d.

Inductive result (A : Type) :=
| OK (a : A)
| Raise (e : exn).
Arguments OK {A} a.
Arguments Raise {A} e.

#[global] Instance result_ret : MRet result := fun A a => OK a.
#[global] Instance result_bind : MBind result := fun A B f r =>
  match r with OK a => f a | Raise e => Raise e end.

(** The file system: by path, the text of every regular file as [read()]
    returns it, decoded and with its line ends translated. *)
Abbreviation FS := (gmap str str).

(** Code that acts on the file system and the console: from the files
    before, the result, the files after and the messages sent to the
    console, one entry per [click.echo] call. *)
Definition M (A : Type) : Type := FS -> result A * FS * list str.

#[global] Instance M_ret : MRet M := fun A a fs => (OK a, fs, []).
#[global] Instance M_bind : MBind M := fun A B f m fs =>
  match m fs with
  | (OK a, fs', out) =>
      match f a fs' with
      | (r, fs'', out') => (r, fs'', out ++ out')
      end
  | (Raise e, fs', out) => (Raise e, fs', out)
  end.

Definition raise {A} (e : exn) : M A := fun fs => (Raise e, fs, []).
Definition lift {A} (f : FS -> result A) : M A := fun fs => (f fs, fs, []).
Definition echo (s : str) : M unit := fun fs => (OK tt, fs, [s]).
Definition write_file (p : str) (text : str) : M unit :=
  fun fs => (OK tt, <[p := text]> fs, []).

(** ** Paths *)

Definition slash : char := 47.
Definition period : char := 46.

(** [p] lies below directory [d]. *)
Definition under (d p : str) : Prop := (d ++ [slash]) `prefix_of` p.

#[global] Instance under_dec d p : Decision (under d p).
Proof. unfold under. apply _. Defined.

Definition isfile (fs : FS) (p : str) : bool := bool_decide (is_Some (fs !! p)).
Definition isdir (fs : FS) (p : str) : bool :=
  bool_decide (filter (fun kv => under p kv.1) fs ≠ ∅).
Definition exists_ (fs : FS) (p : str) : bool := isfile fs p || isdir fs p.

(** [Path(a).joinpath(Path(b))]: an absolute [b] replaces [a]. *)
Definition joinpath (a b : str) : str :=
  if startswith [slash] b then b else a ++ [slash] ++ b.

(** [os.path.join(a, b)]. *)
Definition path_join (a b : str) : str :=
  if startswith [slash] b then b
  else if bool_decide (a = []) || bool_decide (last a = Some slash) then a ++ b
  else a ++ [slash] ++ b.

(** [Path(p).parent], for a path with a directory part. *)
Definition parent (p : str) : str :=
  reverse (drop 1 (drop_while (fun c => negb (c =? slash)) (reverse p))).

(** [Path(p).name] and [Path(p).suffix] (PurePath.suffix: the part of the
    name from its last dot, unless the dot is first or last). *)
Definition name (p : str) : str :=
  reverse (take_while (fun c => negb (c =? slash)) (reverse p)).

Definition suffix (p : str) : str :=
  let n := name p in
  let ext := reverse (take_while (fun c => negb (c =? period)) (reverse n)) in
  if bool_decide (length ext < length n - 1)%nat && bool_decide (ext ≠ [])
  then period :: ext else [].

(** [shutil.rmtree(d, ignore_errors=True)]: every file below [d] goes. *)
Definition rmtree_fs (d : str) (fs : FS) : FS :=
  filter (fun kv => ¬ under d kv.1) fs.

Definition rmtree (d : str) : M unit := fun fs => (OK tt, rmtree_fs d fs, []).

(** [makedirs(d, exist_ok=True)] and [Path.mkdir(parents=True,
    exist_ok=True)] create directories only, which the file map does not
    record. The map is taken to be well formed: no path is a regular file
    and a directory at once, so a directory to create never meets a regular
    file of its name. *)
Definition makedirs (d : str) : M unit := mret tt.

(** The errors of [open] and [Path] on a missing file and on [None]; the
    file name is quoted as it is, without the escapes of [repr]. *)
Definition not_found (p : str) : exn :=
  Exn FileNotFoundError (lit "[Errno 2] No such file or directory: '" ++ p ++ lit "'").

Definition not_a_path : exn :=
  Exn TypeError (lit "expected str, bytes or os.PathLike object, not NoneType").

(** [open(file_path, "r")] followed by [read()]. [None] is not a path. *)
Definition read_text (fs : FS) (file_path : option str) : result str :=
  match file_path with
  | None => Raise not_a_path
  | Some p =>
      match fs !! p with
      | Some text => OK text
      | None => Raise (not_found p)
      end
  end.

(** ** silkie.py *)

(** The fields of [GeneratorOptions] that silkie.py reads or assigns. The
    input path is [None] when the [-i] flag is absent. *)
Record GeneratorOptions := mkOptions {
  input_path : option str;
  stylesheet_url : option str;
  lang : str;
  description : str;
  title : str;
  content : str;
  slug : str
}.

Definition set_title (t : str) (o : GeneratorOptions) : GeneratorOptions :=
  mkOptions (input_path o) (stylesheet_url o) (lang o) (description o) t
            (content o) (slug o).

Definition set_input_path (p : str) (o : GeneratorOptions) : GeneratorOptions :=
  mkOptions (Some p) (stylesheet_url o) (lang o) (description o) (title o)
            (content o) (slug o).

(** [get_title]: the match of [title_re] on the text of the file, stripped;
    the empty string when there is no match. *)
Definition title_of (text : str) : str :=
  match search title_re text with
  | Some m => strip m
  | None => []
  end.

Definition get_title (fs : FS) (file_path : option str) : result str :=
  text ← read_text fs file_path;
  mret (title_of text).

(** ** yattag *)

#[local] Set Warnings "-register-all".

(** What [Doc] accumulates. [Asis] is text appended verbatim, [Text] is
    text escaped on output, [Stag] a self-closing tag, [Elem] a
    [with tag(...)] block with the nodes appended inside it. *)
Inductive node :=
| Asis (s : str)
| Text (s : str)
| Stag (tag : string) (attrs : list (string * str))
| Elem (tag : string) (attrs : list (string * str)) (children : list node).

Definition dquote : char := 34.

(** [html_escape] and [attr_escape] of yattag.simpledoc. *)
Definition html_escape (s : str) : str :=
  replace1 62 (lit "&gt;") (replace1 60 (lit "&lt;") (replace1 38 (lit "&amp;") s)).

Definition attr_escape (s : str) : str :=
  replace1 34 (lit "&quot;") (replace1 60 (lit "&lt;") (replace1 38 (lit "&amp;") s)).

Definition render_attrs (attrs : list (string * str)) : str :=
  attrs ≫= (fun kv =>
              lit " " ++ lit kv.1 ++ lit "=" ++ [dquote] ++ attr_escape kv.2 ++ [dquote]).

Fixpoint render (n : node) : str :=
  match n with
  | Asis s => s
  | Text s => html_escape s
  | Stag t a => lit "<" ++ lit t ++ render_attrs a ++ lit " />"
  | Elem t a ch =>
      lit "<" ++ lit t ++ render_attrs a ++ lit ">"
      ++ concat (map render ch) ++ lit "</" ++ lit t ++ lit ">"
  end.

(** [doc.getvalue()] *)
Definition getvalue (doc : list node) : str := concat (map render doc).

(** [line(tag, text)] is [with tag(tag): text(text)]. *)
Definition line (tag : string) (text : str) : node := Elem tag [] [Text text].

(** ** Rendering *)

Definition get_html_head (options : GeneratorOptions) : list node :=
  [Elem "head" []
     ([Stag "meta" [("charset", lit "utf-8")];
       Stag "meta" [("name", lit "viewport");
                    ("content", lit "width=device-width, initial-scale=1")];
       Stag "meta" [("name", lit "description"); ("content", description options)];
       Stag "meta" [("property", lit "og:description");
                    ("content", description options)];
       Elem "title" [] [Text (title options)]]
      ++ match stylesheet_url options with
         | Some url => [Stag "link" [("rel", lit "stylesheet"); ("href", url)]]
         | None => []
         end)]%string.

(** The paragraphs [parse_text] computes from the content and the title. *)
Definition paragraphs_of (content title : str) : list str :=
  split (lit "\n\n")
        (strip (slice content (Z.of_nat (length title) + 1) (-1))).

(** [parse_text]: assigns [options.title], returns the nodes it appends. *)
Definition parse_text (fs : FS) (options : GeneratorOptions)
  : result (list node * GeneratorOptions) :=
  t ← get_title fs (input_path options);
  let options := set_title t options in
  let paragraphs := paragraphs_of (content options) (title options) in
  mret ((if bool_decide (title options = []) then [] else [line "h1" (title options)])
        ++ map (line "p") paragraphs,
        options).

Section Render.

(** [markdown.markdown] and [yattag.indent] are libraries' functions. *)
Variable markdown : str -> str.
Variable indent : str -> str.

Definition parse_markdown (content : str) : list node :=
  [Asis (markdown (strip content))].

(** [Path(options.input_path).suffix]; [Path(None)] is a TypeError. *)
Definition file_extension_of (options : GeneratorOptions) : result str :=
  match input_path options with
  | Some p => OK (suffix p)
  | None => Raise not_a_path
  end.

(** The nodes appended inside [with tag("body")]. *)
Definition get_html_body (fs : FS) (options : GeneratorOptions)
  : result (list node * GeneratorOptions) :=
  file_extension ← file_extension_of options;
  if bool_decide (file_extension = lit ".txt") then parse_text fs options
  else if bool_decide (file_extension = lit ".md")
       then mret (parse_markdown (content options), options)
       else mret ([], options).

(** The document [get_html] builds, before [indent(doc.getvalue())]. *)
Definition get_html_doc (fs : FS) (options : GeneratorOptions)
  : result (list node * GeneratorOptions) :=
  let head := get_html_head options in
  '(body, options') ← get_html_body fs options;
  mret ([Asis (lit "<!DOCTYPE html>");
         Elem "html" [("lang", lang options)]
              (head ++ [Elem "body" [] body])]%string,
        options').

Definition get_html (fs : FS) (options : GeneratorOptions)
  : result (str * GeneratorOptions) :=
  '(doc, options') ← get_html_doc fs options;
  mret (indent (getvalue doc), options').

End Render.

(** ** Writing and the command

    What silkie.py takes from the rest of the package and from libraries:
    [silkie.definitions] (the output directory and the supported
    extensions), [silkie.utils] ([TextColor], [is_filetype_supported]),
    [silkie.options] (the constructor of [GeneratorOptions] and its
    [load_metadata]), [glob.glob], [markdown.markdown] and [yattag.indent].
    The constructor, [load_metadata] and [glob] read the files. *)
Record Externals := mkExternals {
  markdown : str -> str;
  indent : str -> str;
  DIST_DIRECTORY_PATH : str;
  SUPORTED_FILE_EXTENSIONS : list str;
  is_filetype_supported : str -> bool;
  FAIL : str;
  ENDC : str;
  OKGREEN : str;
  BOLD : str;
  GeneratorOptions_init :
    FS -> option str -> option str -> option str -> option str
    -> result GeneratorOptions;
  load_metadata : FS -> GeneratorOptions -> result GeneratorOptions;
  glob : FS -> str -> list str
}.

Definition check_mark : char := 10003.
Definition cross_mark : char := 10005.

Definition none_path_error : exn :=
  Exn TypeError
      (lit "stat: path should be string, bytes, os.PathLike or integer, not NoneType").

(** [os.path.isfile] and [os.path.isdir]: [os.stat(None)] is a TypeError,
    which neither catches. *)
Definition path_isfile (p : option str) : M bool :=
  match p with
  | Some p => fun fs => (OK (isfile fs p), fs, [])
  | None => raise none_path_error
  end.

Definition path_isdir (p : option str) : M bool :=
  match p with
  | Some p => fun fs => (OK (isdir fs p), fs, [])
  | None => raise none_path_error
  end.

Definition duplicate_message (slug : str) : str :=
  lit "warn: Duplicate routes found!\n" ++ slug
  ++ lit " is already taken by another document".

Inductive outcome :=
| Returned
| Uncaught (e : exn).

Section Generator.

Variable E : Externals.

Definition success_message (options : GeneratorOptions) : str :=
  OKGREEN E ++ BOLD E ++ [check_mark] ++ lit " Success: "
  ++ lit "Static file for '" ++ slug options ++ lit "' is generated in dist/"
  ++ ENDC E.

Definition write_static_file
  (content : str) (destination : str) (options : GeneratorOptions) : M unit :=
  write_file destination content;;
  echo (success_message options).

Definition route_of (options : GeneratorOptions) : str :=
  joinpath (DIST_DIRECTORY_PATH E) (slug options ++ lit ".html").

Definition build_folder_structure (options : GeneratorOptions) : M str :=
  let route := route_of options in
  exists_route ← (fun fs => (OK (exists_ fs route), fs, []));
  if (exists_route : bool)
  then raise (Exn FileExistsError (duplicate_message (slug options)))
  else makedirs (parent route);; mret route.

(** Returns the options as [get_html] leaves them ([parse_text] assigns
    the title of the object the caller keeps). *)
Definition generate_static_file (options : GeneratorOptions)
  : M GeneratorOptions :=
  '(html, options) ← lift (fun fs => get_html (markdown E) (indent E) fs options);
  file_path ← build_folder_structure options;
  write_static_file html file_path options;;
  mret options.

(** [options.load_metadata(); generate_static_file(options)] *)
Definition process (options : GeneratorOptions) : M GeneratorOptions :=
  options ← lift (fun fs => load_metadata E fs options);
  generate_static_file options.

(** The inner loop, over the paths [glob.glob] returned. *)
Fixpoint scan_files (files : list str) (options : GeneratorOptions)
  : M GeneratorOptions :=
  match files with
  | [] => mret options
  | filepath :: files' =>
      options ← process (set_input_path filepath options);
      scan_files files' options
  end.

(** The outer loop, over the supported extensions. *)
Fixpoint scan_extensions
  (dir_path : str) (extensions : list str) (options : GeneratorOptions)
  : M GeneratorOptions :=
  match extensions with
  | [] => mret options
  | extension :: extensions' =>
      files ← (fun fs =>
                 (OK (glob E fs (path_join dir_path (lit "*" ++ extension))), fs, []));
      options ← scan_files files options;
      scan_extensions dir_path extensions' options
  end.

(** "Generate static file(s)": the two [if] statements of [silkie]. *)
Definition generate_inputs (options : GeneratorOptions) : M unit :=
  is_file ← path_isfile (input_path options);
  options ← (if (is_file : bool) && from_option (is_filetype_supported E) false
                                                (input_path options)
             then process options
             else mret options);
  is_dir ← path_isdir (input_path options);
  if (is_dir : bool)
  then scan_extensions (default [] (input_path options))
                       (SUPORTED_FILE_EXTENSIONS E) options;;
       mret tt
  else mret tt.

(** The body of the [try] statement of [silkie]: the options, the clean
    build, the inputs. *)
Definition silkie_try (input_path_ stylesheet lang_ config : option str) : M unit :=
  options ← lift (fun fs =>
                    GeneratorOptions_init E fs input_path_ stylesheet lang_ config);
  rmtree (DIST_DIRECTORY_PATH E);;
  makedirs (DIST_DIRECTORY_PATH E);;
  generate_inputs options.

Definition failure_message (e : exn) : str :=
  FAIL E ++ [cross_mark] ++ lit " " ++ exn_msg e ++ ENDC E.

(** The three [except] clauses, in order; an exception none of them
    matches leaves the command. *)
Definition caught (e : exn) : bool :=
  isinstance e FileNotFoundError || isinstance e JSONDecodeError
  || isinstance e OSError.

Definition silkie (input_path_ stylesheet lang_ config : option str)
  : FS -> outcome * FS * list str :=
  fun fs =>
    match silkie_try input_path_ stylesheet lang_ config fs with
    | (OK _, fs', out) => (Returned, fs', out)
    | (Raise e, fs', out) =>
        if isinstance e FileNotFoundError then (Returned, fs', out ++ [failure_message e])
        else if isinstance e JSONDecodeError then (Returned, fs', out ++ [failure_message e])
        else if isinstance e OSError then (Returned, fs', out ++ [failure_message e])
        else (Uncaught e, fs', out)
    end.

End Generator.

(** ** Vocabulary of the properties *)

(** The first line of a text and what follows it. *)
Definition first_line (s : str) : str := take_while dot s.
Definition after_first_line (s : str) : str := drop_while dot s.

(** A non-empty first line with at least three line feeds right after it:
    the texts [title_re] matches. *)
Definition title_pattern (s : str) : bool :=
  bool_decide (first_line s ≠ []) && startswith [nl; nl; nl] (after_first_line s).

(** The first line is followed by exactly two blank lines: three line feeds
    right after it, and no fourth. *)
Definition exact_title_pattern (s : str) : bool :=
  startswith [nl; nl; nl] (after_first_line s)
  && negb (startswith [nl; nl; nl; nl] (after_first_line s)).

(** A text of white space only (the empty text included). *)
Definition blank (s : str) : bool := forallb isspace s.

(** The title rule in the words of the specification: the extractor returns
    a non-empty title exactly when the first line is followed by exactly two
    blank lines; the title is then the first line, trimmed, and otherwise it
    is empty. *)
Definition title_rule_as_stated (content : str) : Prop :=
  (title_of content ≠ [] <-> exact_title_pattern content = true)
  /\ (title_of content ≠ [] -> title_of content = strip (first_line content))
  /\ (exact_title_pattern content = false -> title_of content = []).

(** The elements of a document in document order, with their attributes.
    Text appended verbatim is not parsed. *)
Fixpoint elements (n : node) : list (string * list (string * str)) :=
  match n with
  | Asis _ | Text _ => []
  | Stag t a => [(t, a)]
  | Elem t a ch => (t, a) :: concat (map elements ch)
  end.

Definition doc_elements (doc : list node) : list (string * list (string * str)) :=
  concat (map elements doc).

Definition has_element (t : string) (doc : list node) : bool :=
  existsb (fun e => String.eqb e.1 t) (doc_elements doc).



(** The rule for texts without a title in the words of the specification:
    a [.txt] input whose text lacks the exact pattern has an empty title and
    a document without an [h1] element. *)
Definition untitled_rule_as_stated
  (md : str -> str) (fs : FS) (options : GeneratorOptions) (p text : str) : Prop :=
  input_path options = Some p -> suffix p = lit ".txt" -> fs !! p = Some text ->
  exact_title_pattern text = false ->
  get_title fs (Some p) = OK []
  /\ forall doc options', get_html_doc md fs options = OK (doc, options') ->
                         has_element "h1" doc = false.

(** The console lines one [click.echo(message)] prints. *)
Definition console_lines (message : str) : list str := split [nl] message.

(** What a piece of code keeps between the files before and after it. *)
Definition preserves {A : Type} (R : FS -> FS -> Prop) (m : M A) : Prop :=
  forall fs r fs' out, m fs = (r, fs', out) -> R fs fs'.

(** The same files outside directory [d]. *)
Definition same_outside (d : str) (fs fs' : FS) : Prop :=
  rmtree_fs d fs' = rmtree_fs d fs.

(** A relative path. *)
Definition relative (p : str) : Prop := startswith [slash] p = false.

(** ** Runs

    [later_in_run E fs fs']: within one run, the files [fs'] are reached
    from [fs] by processing further inputs, each with success. *)
Inductive later_in_run (E : Externals) : FS -> FS -> Prop :=
| later_now (fs : FS) : later_in_run E fs fs
| later_step (fs fs' fs'' : FS) (o o' : GeneratorOptions) (out : list str) :
    process E o fs = (OK o', fs', out) ->
    later_in_run E fs' fs'' ->
    later_in_run E fs fs''.

(** The errors of the taxonomy of the specification: NotFound,
    MalformedConfig, OSFailure and DuplicateRoute are FileNotFoundError,
    JSONDecodeError, OSError and FileExistsError. *)
Definition in_taxonomy (e : exn) : bool :=
  isinstance e FileNotFoundError || isinstance e JSONDecodeError
  || isinstance e OSError || isinstance e FileExistsError.

(** The report of errors in the words of the specification: an error of the
    taxonomy raised during a run is caught and shown as a single console
    line. *)
Definition error_report_as_stated
  (E : Externals) (input_path_ stylesheet lang_ config : option str) (fs : FS) : Prop :=
  forall e fs' out,
    silkie_try E input_path_ stylesheet lang_ config fs = (Raise e, fs', out) ->
    in_taxonomy e = true ->
    exists message,
      silkie E input_path_ stylesheet lang_ config fs = (Returned, fs', out ++ [message])
      /\ length (console_lines message) = 1%nat.


(** ** A concrete environment

    Used to run the command on examples. *)

(** [Path(p).stem] *)
Definition stem (p : str) : str :=
  take (length (name p) - length (suffix p)) (name p).

(** Modelled from the spec: [GeneratorOptions.load_metadata] of
    silkie/options.py. The content is the raw text of the input file and the
    slug is derived from the file name (its stem). *)
Definition spec_load_metadata (fs : FS) (o : GeneratorOptions)
  : result GeneratorOptions :=
  text ← read_text fs (input_path o);
  mret (mkOptions (input_path o) (stylesheet_url o) (lang o) (description o)
                  (title o) text (stem (default [] (input_path o)))).

(** Modelled from the spec: the constructor of [GeneratorOptions] of
    silkie/options.py. It fails with NotFound when the input path or the
    config path does not exist, and the language defaults to a fixed locale.
    The values a config file supplies are left out. *)
Definition spec_init (fs : FS) (input_path_ stylesheet lang_ config : option str)
  : result GeneratorOptions :=
  match config with
  | Some c => if isfile fs c then OK tt else Raise (not_found c)
  | None => OK tt
  end ≫= fun _ =>
  match input_path_ with
  | Some i => if exists_ fs i then OK tt else Raise (not_found i)
  | None => OK tt
  end ≫= fun _ =>
  OK (mkOptions input_path_ stylesheet (default (lit "en-CA") lang_) [] [] [] []).

(** [glob.glob] for the patterns silkie builds, [dir/*ext]: the files of
    [dir] whose name ends in [ext], in the order of the file map. *)
Definition glob_match (pattern p : str) : bool :=
  let pre := take_while (fun c => negb (c =? 42)) pattern in
  let post := drop (S (length pre)) pattern in
  let mid := take (length p - length pre - length post) (drop (length pre) p) in
  bool_decide (p = pre ++ mid ++ post) && bool_decide (slash ∉ mid)
  && negb (startswith [period] mid).

Definition fs_glob (fs : FS) (pattern : str) : list str :=
  List.filter (glob_match pattern) (map fst (map_to_list fs)).

Definition sample_extensions : list str := [lit ".txt"; lit ".md"].

Definition sample_env : Externals :=
  mkExternals id id (lit "dist") sample_extensions
              (fun p => bool_decide (suffix p ∈ sample_extensions))
              (27 :: lit "[91m") (27 :: lit "[0m") (27 :: lit "[92m") (27 :: lit "[1m")
              spec_init spec_load_metadata fs_glob.

Definition text_options (p text : str) : GeneratorOptions :=
  mkOptions (Some p) None (lit "en-CA") [] [] text (stem p).

(** The text of the example of the specification, as a [.txt] input. *)
Definition hello_text : str := lit "Hello\n\n\nWorld\n\nFoo bar".
Definition hello_path : str := lit "hello.txt".
Definition hello_fs : FS := {[ hello_path := hello_text ]}.
Definition hello_options : GeneratorOptions := text_options hello_path hello_text.

(** A text without a title. *)
Definition notes_text : str := lit "World\n\nFoo bar\n".
Definition notes_path : str := lit "notes.txt".
Definition notes_fs : FS := {[ notes_path := notes_text ]}.
Definition notes_options : GeneratorOptions := text_options notes_path notes_text.

(** A source directory with two inputs of one slug, and the output of an
    earlier run. *)
Definition fs_ex : FS :=
  {[ lit "in/a.txt" := lit "Hello\n\n\nWorld\n\nFoo bar";
     lit "in/a.md" := lit "# A";
     lit "in/b.txt" := lit "B\n";
     lit "dist/old.html" := lit "old" ]}.

(** The inputs of [fs_ex] alone, and the first steps of a run on them:
    [in/a.txt] is written, then [in/b.txt] is processed; [in/a.md], of the
    slug of [in/a.txt], comes next. *)
Definition src_fs : FS :=
  {[ lit "in/a.txt" := lit "Hello\n\n\nWorld\n\nFoo bar";
     lit "in/a.md" := lit "# A";
     lit "in/b.txt" := lit "B\n" ]}.

Definition a_txt_options : GeneratorOptions :=
  text_options (lit "in/a.txt") (lit "Hello\n\n\nWorld\n\nFoo bar").

Definition a_md_options : GeneratorOptions :=
  text_options (lit "in/a.md") (lit "# A").

Definition after_a_txt : result GeneratorOptions * FS * list str :=
  generate_static_file sample_env a_txt_options src_fs.

Definition after_b_txt : result GeneratorOptions * FS * list str :=
  process sample_env (set_input_path (lit "in/b.txt") (set_title (lit "Hello") a_txt_options))
          after_a_txt.1.2.

(** A run of the command on the directory [in] of [fs_ex]. *)
Definition dir_run : outcome * FS * list str :=
  silkie sample_env (Some (lit "in")) None None None fs_ex.

(** ** Further vocabulary *)

(** The texts directly inside the elements named [t], in document order. *)
Fixpoint texts_of (t : string) (n : node) : list str :=
  match n with
  | Elem t' _ ch =>
      (if String.eqb t' t
       then ch ≫= (fun c => match c with Text s => [s] | _ => [] end)
       else [])
      ++ concat (map (texts_of t) ch)
  | _ => []
  end.

Definition doc_texts_of (t : string) (doc : list node) : list str :=
  concat (map (texts_of t) doc).

(** [sep.join(pieces)] *)
Fixpoint join (sep : str) (pieces : list str) : str :=
  match pieces with
  | [] => []
  | [x] => x
  | x :: rest => x ++ sep ++ join sep rest
  end.

(** The files below directory [d]. *)
Definition output_files (d : str) (fs : FS) : FS :=
  filter (fun kv => under d kv.1) fs.

(** A piece of code that prints one message for each file it adds below
    directory [d]. *)
Definition tallies {A : Type} (d : str) (m : M A) : Prop :=
  forall fs r fs' out,
    m fs = (r, fs', out) ->
    size (output_files d fs') = (size (output_files d fs) + length out)%nat.

(** The number of occurrences of a character. *)
Definition count_char (c : char) (s : str) : nat := length (filter (fun x => x = c) s).




(** An input that lies in the output directory of [sample_env]. *)
Definition inside_fs : FS :=
  {[ lit "dist/page.txt" := lit "Page\n"; lit "notes.txt" := lit "World\n" ]}.

(** * Properties *)

Example search_ex1 :
  search title_re (lit "Hello\n\n\nWorld\n\nFoo bar") = Some (lit "Hello\n\n\n").
Proof. vm_compute. reflexivity. Qed.

Example split_ex1 :
  split (lit "\n\n") (lit "a\n\n\nb\n\nc") = [lit "a"; lit "\nb"; lit "c"].
Proof. vm_compute. reflexivity. Qed.

Example split_ex2 : split (lit "\n\n") [] = [[]].
Proof. reflexivity. Qed.

Example slice_ex1 : slice (lit "abcdef") 2 (-1) = lit "cde".
Proof. reflexivity. Qed.

Example slice_ex2 : slice (lit "ab") 5 (-1) = [].
Proof. reflexivity. Qed.

Example strip_ex1 : strip (lit " \n a b \n") = lit "a b".
Proof. vm_compute. reflexivity. Qed.

Example suffix_ex1 : suffix (lit "docs/a.b.txt") = lit ".txt".
Proof. vm_compute. reflexivity. Qed.

Example suffix_ex2 : suffix (lit "docs/.txt") = [].
Proof. vm_compute. reflexivity. Qed.

Example suffix_ex3 : suffix (lit "a.d/readme") = [].
Proof. vm_compute. reflexivity. Qed.

Example stem_ex1 : stem (lit "docs/a.b.txt") = lit "a.b".
Proof. vm_compute. reflexivity. Qed.

(** ** Lists and strings *)

Section ListLemmas.
Context {A : Type} (p : A -> bool).

Lemma take_drop_while (l : list A) : take_while p l ++ drop_while p l = l.
Proof. induction l as [|x l IH]; simpl; [done|]. destruct (p x); simpl; congruence. Qed.

Lemma drop_take_while_length (l : list A) :
  drop (length (take_while p l)) l = drop_while p l.
Proof. induction l as [|x l IH]; simpl; [done|]. destruct (p x); simpl; done. Qed.

Lemma take_take_while_length (l : list A) :
  take (length (take_while p l)) l = take_while p l.
Proof. induction l as [|x l IH]; simpl; [done|]. destruct (p x); simpl; congruence. Qed.

Lemma drop_inside_take_while (l : list A) (j : nat) :
  (j < length (take_while p l))%nat ->
  exists c rest, drop j l = c :: rest /\ p c = true.
Proof.
  revert j. induction l as [|x l IH]; simpl; intros j Hj; [lia|].
  destruct (p x) eqn:Hx; simpl in Hj; [|lia].
  destruct j as [|j]; simpl; [eauto|]. apply IH. lia.
Qed.

Lemma drop_while_all (l : list A) : forallb p l = true -> drop_while p l = [].
Proof.
  induction l as [|x l IH]; simpl; [done|].
  destruct (p x); simpl; [done|discriminate].
Qed.

Lemma drop_while_app (l t : list A) :
  drop_while p (l ++ t) =
  if forallb p l then drop_while p t else drop_while p l ++ t.
Proof.
  induction l as [|x l IH]; simpl; [done|].
  destruct (p x); simpl; done.
Qed.

Lemma drop_while_head (l : list A) :
  match drop_while p l with x :: _ => p x = false | [] => True end.
Proof. induction l as [|x l IH]; simpl; [done|]. destruct (p x) eqn:Hx; simpl; done. Qed.

End ListLemmas.

Lemma startswith_nil (s : str) : startswith [] s = true.
Proof. unfold startswith. apply bool_decide_eq_true. apply prefix_nil. Qed.

Lemma startswith_cons (a b : char) (p s : str) :
  startswith (a :: p) (b :: s) = bool_decide (a = b) && startswith p s.
Proof.
  unfold startswith. case_bool_decide as H1.
  - rewrite (bool_decide_eq_true_2 (a = b)); [|by eapply prefix_cons_inv_1].
    simpl. symmetry. apply bool_decide_eq_true. by eapply prefix_cons_inv_2.
  - symmetry. apply andb_false_iff.
    destruct (decide (a = b)) as [->|Hne].
    + right. apply bool_decide_eq_false. intros Hp. apply H1. by apply prefix_cons.
    + left. by apply bool_decide_eq_false.
Qed.

Lemma startswith_empty (a : char) (p : str) : startswith (a :: p) [] = false.
Proof. unfold startswith. apply bool_decide_eq_false. apply prefix_nil_not. Qed.

(** Trailing white space does not change what [strip] returns. *)
Lemma strip_app_space (l t : str) :
  forallb isspace t = true -> strip (l ++ t) = strip l.
Proof.
  intros Ht. unfold strip, lstrip. rewrite drop_while_app.
  destruct (forallb isspace l) eqn:Hl.
  - by rewrite (drop_while_all _ t Ht), (drop_while_all _ l Hl).
  - unfold rstrip. rewrite reverse_app, drop_while_app.
    assert (forallb isspace (reverse t) = true) as ->; [|done].
    apply forallb_forall. intros x Hx. rewrite reverse_Permutation in Hx.
    revert x Hx. by apply forallb_forall.
Qed.

(** ** The title pattern *)

(** The three line feeds of [title_re], matched at the head of [t]. *)
Lemma match_three_feeds (t : str) :
  match_here [One (is_chr nl); One (is_chr nl); One (is_chr nl)] false t =
  if startswith [nl; nl; nl] t then Some [nl; nl; nl] else None.
Proof.
  assert (forall x : char, bool_decide (nl = x) = (x =? nl)) as Heq.
  { intros x. destruct (N.eqb_spec x nl) as [->|Hx].
    - by apply bool_decide_eq_true_2.
    - by apply bool_decide_eq_false_2. }
  destruct t as [|a [|b [|c t]]]; cbn [match_here]; unfold is_chr;
    repeat first [rewrite startswith_cons | rewrite startswith_empty
                 | rewrite startswith_nil ]; rewrite ?Heq.
  - done.
  - destruct (a =? nl); done.
  - destruct (a =? nl); [|done]. destruct (b =? nl); done.
  - destruct (N.eqb_spec a nl) as [->|Ha]; [|done].
    destruct (N.eqb_spec b nl) as [->|Hb]; [|done].
    destruct (N.eqb_spec c nl) as [->|Hc]; done.
Qed.

(** Inside the first line the three line feeds cannot start: [.+] has no
    shorter run to fall back on. *)
Lemma longest_first_inside (s : str) (k : nat) :
  (k < length (take_while dot s))%nat ->
  longest_first
    (match_here [One (is_chr nl); One (is_chr nl); One (is_chr nl)] false) s k = None.
Proof.
  induction k as [|k IH]; intros Hk; [done|].
  cbn [longest_first].
  destruct (drop_inside_take_while dot s (S k) Hk) as (c & rest & -> & Hc).
  rewrite IH by lia. cbn [match_here]. unfold is_chr.
  unfold dot in Hc. apply negb_true_iff in Hc. by rewrite Hc.
Qed.

Lemma search_anchored (r : list item) (s : str) : search_from (Bol :: r) false s = None.
Proof. induction s as [|c s IH]; simpl; done. Qed.

(** What r"^.+(\n\n\n)" finds: the first line and its three line feeds, when
    the text has the title pattern. *)
Lemma search_title_re (s : str) :
  search title_re s =
  if title_pattern s then Some (first_line s ++ [nl; nl; nl]) else None.
Proof.
  unfold search, title_re, title_pattern, first_line, after_first_line.
  assert (match_here [Bol; Many1 dot; One (is_chr nl); One (is_chr nl); One (is_chr nl)]
                     true s =
          if bool_decide (take_while dot s ≠ []) && startswith [nl; nl; nl] (drop_while dot s)
          then Some (take_while dot s ++ [nl; nl; nl]) else None) as Hm.
  { change (match_here [Bol; Many1 dot; One (is_chr nl); One (is_chr nl); One (is_chr nl)]
                        true s)
      with (longest_first
              (match_here [One (is_chr nl); One (is_chr nl); One (is_chr nl)] false)
              s (length (take_while dot s))).
    destruct (length (take_while dot s)) as [|n] eqn:Hn.
    - apply length_zero_iff_nil in Hn. rewrite Hn. by rewrite bool_decide_eq_false_2 by auto.
    - rewrite bool_decide_eq_true_2 by (intros E; by rewrite E in Hn).
      cbn [longest_first andb]. rewrite <- Hn.
      rewrite drop_take_while_length, take_take_while_length, match_three_feeds.
      destruct (startswith [nl; nl; nl] (drop_while dot s)); [done|].
      apply longest_first_inside. lia. }
  destruct s as [|c s]; cbn [search_from]; rewrite Hm.
  - by destruct (_ && _).
  - destruct (_ && _); [done|]. apply search_anchored.
Qed.

(** The title [get_title] extracts from a text. *)
Lemma title_of_pattern (s : str) :
  title_of s = if title_pattern s then strip (first_line s) else [].
Proof.
  unfold title_of. rewrite search_title_re.
  destruct (title_pattern s); [|done]. by apply strip_app_space.
Qed.

Lemma drop_while_nil_iff {A} (p : A -> bool) (l : list A) :
  drop_while p l = [] <-> forallb p l = true.
Proof.
  split; [|apply drop_while_all].
  induction l as [|x l IH]; simpl; [done|].
  destruct (p x); simpl; [done|discriminate].
Qed.

Lemma forallb_reverse {A} (p : A -> bool) (l : list A) :
  forallb p (reverse l) = forallb p l.
Proof.
  apply eq_true_iff_eq. rewrite !forallb_forall.
  split; intros H x Hx; apply H; by rewrite ?reverse_Permutation in *.
Qed.

(** [strip] returns the empty string on blank texts only. *)
Lemma strip_nil_iff (s : str) : strip s = [] <-> blank s = true.
Proof.
  unfold strip, rstrip, lstrip, blank.
  rewrite <- (reverse_involutive []) at 1.
  split.
  - intros H. apply (inj reverse) in H. rewrite reverse_nil in H.
    apply drop_while_nil_iff in H. rewrite forallb_reverse in H.
    pose proof (drop_while_head isspace s) as Hh.
    destruct (drop_while isspace s) as [|x r] eqn:Hd.
    + by apply drop_while_nil_iff.
    + simpl in H. rewrite Hh in H. discriminate.
  - intros H. by rewrite (drop_while_all _ _ H).
Qed.

Lemma adjust_index_start (len n : nat) :
  adjust_index (Z.of_nat len) (Z.of_nat n + 1) = Z.of_nat (min len (S n)).
Proof.
  unfold adjust_index. cbv zeta.
  destruct (Z.ltb_spec (Z.of_nat n + 1) 0) as [?|_]; [lia|].
  destruct (Z.ltb_spec (Z.of_nat n + 1) 0) as [?|_]; [lia|].
  destruct (Z.ltb_spec (Z.of_nat len) (Z.of_nat n + 1)); lia.
Qed.

Lemma adjust_index_last (len : nat) :
  adjust_index (Z.of_nat len) (-1) = Z.of_nat (pred len).
Proof.
  unfold adjust_index. cbv zeta. change (-1 <? 0)%Z with true. cbv iota.
  destruct (Z.ltb_spec (-1 + Z.of_nat len) 0) as [?|?]; [lia|].
  destruct (Z.ltb_spec (Z.of_nat len) (-1 + Z.of_nat len)); lia.
Qed.

(** [s[n+1:-1]] is [s] without its last character and without its first
    [n+1] characters. *)
Lemma slice_drop_removelast (s : str) (n : nat) :
  slice s (Z.of_nat n + 1) (-1) = drop (S n) (removelast s).
Proof.
  rewrite removelast_firstn_len. change (firstn ?k ?l) with (take k l).
  unfold slice. cbv zeta. rewrite adjust_index_start, adjust_index_last.
  destruct (decide (length s <= S n)%nat) as [Hle|Hgt].
  - rewrite (drop_ge (take _ _)) by (rewrite length_take; lia).
    replace (Z.to_nat _) with 0%nat by lia. done.
  - rewrite take_drop_commute. f_equal; [lia|]. f_equal. lia.
Qed.

(** ** Titles *)

(** The rule of the specification fails on a first line followed by three
    blank lines: the title is "Hello" although the pattern is not exact. *)
Lemma title_rule_counterexample :
  ~ title_rule_as_stated (lit "Hello\n\n\n\nWorld").
Proof.
  intros (H & _ & _).
  assert (title_of (lit "Hello\n\n\n\nWorld") ≠ []) as Hne by (vm_compute; discriminate).
  apply H in Hne. vm_compute in Hne. discriminate.
Qed.

(** It fails in the other direction on a blank first line: the pattern is
    exact and the title is empty. *)
Lemma title_rule_blank_first_line :
  exact_title_pattern (lit " \n\n\nWorld") = true /\ title_of (lit " \n\n\nWorld") = [].
Proof. split; vm_compute; reflexivity. Qed.

(** C2, amended. On every text the extractor returns the first line
    stripped when the text has the title pattern (a non-empty first line
    with at least three line feeds right after it) and the empty string
    otherwise; the title is non-empty exactly when the first line is not
    blank and at least three line feeds follow it. *)
Theorem get_title_rule (fs : FS) (p content : str) :
  get_title (<[p := content]> fs) (Some p)
  = OK (if title_pattern content then strip (first_line content) else [])
  /\ (title_of content ≠ [] <->
      blank (first_line content) = false
      /\ startswith [nl; nl; nl] (after_first_line content) = true).
Proof.
  split.
  - unfold get_title, read_text. rewrite lookup_insert_eq. cbn.
    by rewrite title_of_pattern.
  - rewrite title_of_pattern. unfold title_pattern.
    destruct (startswith [nl; nl; nl] (after_first_line content));
      rewrite ?andb_true_r, ?andb_false_r.
    + case_bool_decide as Hne; cbn [andb].
      * rewrite strip_nil_iff. destruct (blank (first_line content)); intuition congruence.
      * rewrite Hne. cbn. intuition congruence.
    + intuition congruence.
Qed.

Lemma get_title_rule_witness :
  get_title (<[hello_path := hello_text]> ∅) (Some hello_path) = OK (lit "Hello")
  /\ (title_of hello_text ≠ [] <->
      blank (first_line hello_text) = false
      /\ startswith [nl; nl; nl] (after_first_line hello_text) = true).
Proof.
  split.
  - exact (eq_trans (proj1 (get_title_rule ∅ hello_path hello_text))
                    (f_equal OK (eq_refl : strip (first_line hello_text) = lit "Hello"))).
  - exact (proj2 (get_title_rule ∅ hello_path hello_text)).
Defined.

(** ** Plain text *)

Lemma get_html_body_txt (md : str -> str) (fs : FS) (options : GeneratorOptions)
      (p text : str) :
  input_path options = Some p -> suffix p = lit ".txt" -> fs !! p = Some text ->
  get_html_body md fs options
  = OK ((if bool_decide (title_of text = []) then [] else [line "h1" (title_of text)])
        ++ map (line "p") (paragraphs_of (content options) (title_of text)),
        set_title (title_of text) options).
Proof.
  intros Hp Hs Ht. unfold get_html_body, file_extension_of. rewrite Hp. cbn.
  rewrite Hs, bool_decide_eq_true_2 by done.
  unfold parse_text, get_title, read_text. rewrite Hp, Ht. reflexivity.
Qed.

Lemma doc_elements_app (d1 d2 : list node) :
  doc_elements (d1 ++ d2) = doc_elements d1 ++ doc_elements d2.
Proof. unfold doc_elements. by rewrite map_app, concat_app. Qed.

Lemma doc_elements_lines (t : string) (l : list str) :
  doc_elements (map (line t) l) = map (fun _ => (t, [])) l.
Proof. induction l as [|x l IH]; [done|]. cbn. f_equal. exact IH. Qed.

Lemma get_html_doc_body (md : str -> str) (fs : FS) (options : GeneratorOptions) :
  get_html_doc md fs options
  = '(body, options') ← get_html_body md fs options;
    mret ([Asis (lit "<!DOCTYPE html>");
           Elem "html" [("lang"%string, lang options)]
                (get_html_head options ++ [Elem "body" [] body])],
          options').
Proof. reflexivity. Qed.

Lemma replace1_elem (old : char) (new s : str) (c : char) :
  c ∈ replace1 old new s -> c ∈ new \/ (c ∈ s /\ c ≠ old).
Proof.
  unfold replace1. intros Hc. apply list_elem_of_bind in Hc as (d & Hc & Hd).
  destruct (N.eqb_spec d old) as [Heq|Hne]; [by left|].
  apply list_elem_of_singleton in Hc. subst c. by right.
Qed.

(** Escaped text holds no angle bracket: a paragraph cannot open or close a
    tag. *)
Lemma html_escape_no_markup (s : str) (c : char) :
  c ∈ html_escape s -> c ≠ 60 /\ c ≠ 62.
Proof.
  assert (forall e : str, e = lit "&amp;" \/ e = lit "&lt;" \/ e = lit "&gt;" ->
                          c ∈ e -> c ≠ 60 /\ c ≠ 62) as Hentity.
  { intros e He Hc.
    destruct He as [->|[->| ->]]; vm_compute in Hc;
      repeat (apply elem_of_cons in Hc as [->|Hc]; [done|]);
      by apply elem_of_nil in Hc. }
  unfold html_escape. intros Hc.
  apply replace1_elem in Hc as [Hc|[Hc Hgt]];
    [apply (Hentity _ (or_intror (or_intror eq_refl)) Hc)|].
  apply replace1_elem in Hc as [Hc|[Hc Hlt]];
    [apply (Hentity _ (or_intror (or_introl eq_refl)) Hc)|].
  done.
Qed.

(** A line renders as its tag around the escaped text. *)
Lemma render_line (t : string) (text : str) :
  render (line t text)
  = lit "<" ++ lit t ++ lit ">" ++ html_escape text ++ lit "</" ++ lit t ++ lit ">".
Proof. cbn [line render render_attrs mbind list_bind map concat app]. by rewrite app_nil_r. Qed.

(** C1: the code at the input of the claim. The last paragraph loses its
    final character: the body is h1 "Hello", p "World", p "Foo ba". *)
Theorem hello_world_body (md : str -> str) :
  get_html_body md {[ lit "hello.txt" := lit "Hello\n\n\nWorld\n\nFoo bar" ]}
                (text_options (lit "hello.txt") (lit "Hello\n\n\nWorld\n\nFoo bar"))
  = OK ([line "h1" (lit "Hello"); line "p" (lit "World"); line "p" (lit "Foo ba")],
        set_title (lit "Hello")
                  (text_options (lit "hello.txt") (lit "Hello\n\n\nWorld\n\nFoo bar")))
  /\ getvalue [line "h1" (lit "Hello"); line "p" (lit "World"); line "p" (lit "Foo ba")]
     = lit "<h1>Hello</h1><p>World</p><p>Foo ba</p>".
Proof. split; vm_compute; reflexivity. Qed.

(** C3: the code at a text without a title. The first character of the
    content is lost: the body is p "orld", p "Foo bar". *)
Theorem untitled_text_body (md : str -> str) :
  get_html_body md {[ lit "notes.txt" := lit "World\n\nFoo bar\n" ]}
                (text_options (lit "notes.txt") (lit "World\n\nFoo bar\n"))
  = OK ([line "p" (lit "orld"); line "p" (lit "Foo bar")],
        text_options (lit "notes.txt") (lit "World\n\nFoo bar\n"))
  /\ getvalue [line "p" (lit "orld"); line "p" (lit "Foo bar")]
     = lit "<p>orld</p><p>Foo bar</p>".
Proof. split; vm_compute; reflexivity. Qed.

Lemma doc_elements_cons (n : node) (d : list node) :
  doc_elements (n :: d) = elements n ++ doc_elements d.
Proof. reflexivity. Qed.

Lemma elements_Elem (t : string) (a : list (string * str)) (ch : list node) :
  elements (Elem t a ch) = (t, a) :: doc_elements ch.
Proof. reflexivity. Qed.

(** The elements of the document [get_html] assembles around a body. *)
Lemma doc_elements_document (l : str) (head body : list node) :
  doc_elements [Asis (lit "<!DOCTYPE html>");
                Elem "html" [("lang"%string, l)] (head ++ [Elem "body" [] body])]
  = ("html"%string, [("lang"%string, l)])
      :: doc_elements head ++ ("body"%string, []) :: doc_elements body.
Proof.
  rewrite !doc_elements_cons, elements_Elem, doc_elements_app,
    doc_elements_cons, elements_Elem.
  cbn [elements doc_elements map concat app]. by rewrite !app_nil_r.
Qed.

Lemma has_element_lines (t u : string) (l : list str) :
  String.eqb u t = false -> has_element t (map (line u) l) = false.
Proof.
  intros Hne. unfold has_element. rewrite doc_elements_lines.
  induction l as [|x l IH]; [done|]. cbn. by rewrite Hne.
Qed.

Lemma has_element_head (options : GeneratorOptions) :
  has_element "h1" (get_html_head options) = false.
Proof. unfold has_element. cbn. by destruct (stylesheet_url options). Qed.

(** The rule of the specification for texts without a title fails on a
    first line followed by three blank lines: the pattern is not exact, yet
    the title is "Hello" and the document has an [h1]. *)
Lemma untitled_rule_counterexample :
  ~ untitled_rule_as_stated
      id {[ lit "a.txt" := lit "Hello\n\n\n\nWorld" ]}
      (text_options (lit "a.txt") (lit "Hello\n\n\n\nWorld"))
      (lit "a.txt") (lit "Hello\n\n\n\nWorld").
Proof.
  intros H.
  destruct H as [Ht _]; [reflexivity | by vm_compute | by vm_compute | by vm_compute |].
  vm_compute in Ht. discriminate.
Qed.

(** C5, amended. A [.txt] input whose text does not have the title pattern
    (a non-empty first line with at least three line feeds right after it)
    has the empty title, and the document built for it has no [h1]
    element. *)
Theorem untitled_text_no_h1
        (md : str -> str) (fs : FS) (options : GeneratorOptions) (p text : str) :
  input_path options = Some p -> suffix p = lit ".txt" -> fs !! p = Some text ->
  title_pattern text = false ->
  get_title fs (Some p) = OK []
  /\ exists doc, get_html_doc md fs options = OK (doc, set_title [] options)
                 /\ has_element "h1" doc = false.
Proof.
  intros Hp Hs Ht Hpat.
  assert (title_of text = []) as Hno by (by rewrite title_of_pattern, Hpat).
  split.
  - unfold get_title, read_text. rewrite Ht. cbn. by rewrite Hno.
  - rewrite get_html_doc_body, (get_html_body_txt md fs options p text Hp Hs Ht), Hno.
    eexists. split; [reflexivity|].
    unfold has_element. rewrite doc_elements_document.
    cbn [existsb fst]. rewrite existsb_app. cbn [existsb fst].
    fold (has_element "h1" (get_html_head options)).
    rewrite has_element_head, bool_decide_eq_true_2 by done. cbn [app].
    fold (has_element "h1" (map (line "p") (paragraphs_of (content options) []))).
    by rewrite (has_element_lines "h1" "p").
Qed.

Lemma untitled_text_no_h1_witness :
  title_pattern notes_text = false
  /\ (get_title notes_fs (Some notes_path) = OK []
      /\ exists doc,
          get_html_doc id notes_fs notes_options = OK (doc, set_title [] notes_options)
          /\ has_element "h1" doc = false).
Proof.
  split; [by vm_compute|].
  apply (untitled_text_no_h1 id notes_fs notes_options notes_path notes_text);
    by vm_compute.
Defined.

(** C10. For a [.txt] input the paragraphs come from the content without
    its last character and without its first [len(title) + 1] characters,
    stripped and split on two line feeds: the slice [content[len(title)+1:-1]]
    is that text. With no title the paragraphs come from the content without
    its last and without its first character. *)
Theorem text_paragraphs_slice
        (md : str -> str) (fs : FS) (options : GeneratorOptions) (p text : str) :
  input_path options = Some p -> suffix p = lit ".txt" -> fs !! p = Some text ->
  get_html_body md fs options
  = OK ((if bool_decide (title_of text = []) then [] else [line "h1" (title_of text)])
        ++ map (line "p")
               (split (lit "\n\n")
                      (strip (drop (S (length (title_of text)))
                                   (removelast (content options))))),
        set_title (title_of text) options)
  /\ slice (content options) (Z.of_nat (length (title_of text)) + 1) (-1)
     = drop (S (length (title_of text))) (removelast (content options))
  /\ (title_of text = [] ->
      paragraphs_of (content options) (title_of text)
      = split (lit "\n\n") (strip (tail (removelast (content options))))).
Proof.
  intros Hp Hs Ht. split; [|split].
  - rewrite (get_html_body_txt md fs options p text Hp Hs Ht).
    unfold paragraphs_of. by rewrite slice_drop_removelast.
  - apply slice_drop_removelast.
  - intros Hno. unfold paragraphs_of. rewrite slice_drop_removelast, Hno. cbn [length].
    by destruct (removelast (content options)).
Qed.

Lemma text_paragraphs_slice_witness :
  suffix hello_path = lit ".txt"
  /\ (get_html_body id hello_fs hello_options
      = OK ((if bool_decide (title_of hello_text = []) then []
             else [line "h1" (title_of hello_text)])
            ++ map (line "p")
                   (split (lit "\n\n")
                          (strip (drop (S (length (title_of hello_text)))
                                       (removelast (content hello_options))))),
            set_title (title_of hello_text) hello_options)
      /\ slice (content hello_options) (Z.of_nat (length (title_of hello_text)) + 1) (-1)
         = drop (S (length (title_of hello_text))) (removelast (content hello_options))
      /\ (title_of hello_text = [] ->
          paragraphs_of (content hello_options) (title_of hello_text)
          = split (lit "\n\n") (strip (tail (removelast (content hello_options)))))).
Proof.
  split; [by vm_compute|].
  apply (text_paragraphs_slice id hello_fs hello_options hello_path hello_text);
    by vm_compute.
Defined.

(** ** The head *)








(** ** Writing *)

Section Writing.

Variable E : Externals.

Lemma generate_static_file_eq (options : GeneratorOptions) (fs : FS) :
  generate_static_file E options fs
  = match get_html (markdown E) (indent E) fs options with
    | OK (html, o) =>
        if exists_ fs (route_of E o)
        then (Raise (Exn FileExistsError (duplicate_message (slug o))), fs, [])
        else (OK o, <[route_of E o := html]> fs, [success_message E o])
    | Raise e => (Raise e, fs, [])
    end.
Proof.
  unfold generate_static_file, build_folder_structure, write_static_file,
    mbind, M_bind, lift.
  destruct (get_html _ _ fs options) as [[html o]|e]; [|done].
  destruct (exists_ fs (route_of E o)); reflexivity.
Qed.

(** Rendering assigns the title only. *)
Lemma get_html_body_slug (fs : FS) (options o : GeneratorOptions) (body : list node) :
  get_html_body (markdown E) fs options = OK (body, o) -> slug o = slug options.
Proof.
  unfold get_html_body, mbind, result_bind, mret, result_ret.
  destruct (file_extension_of options) as [ext|e]; [|discriminate].
  case_bool_decide.
  - unfold parse_text, mbind, result_bind, mret, result_ret.
    destruct (get_title fs (input_path options)) as [t|e]; [|discriminate].
    intros Heq. injection Heq as _ <-. reflexivity.
  - case_bool_decide; intros Heq; injection Heq as _ <-; reflexivity.
Qed.

Lemma get_html_slug (fs : FS) (options o : GeneratorOptions) (html : str) :
  get_html (markdown E) (indent E) fs options = OK (html, o) -> slug o = slug options.
Proof.
  unfold get_html, get_html_doc, mbind, result_bind, mret, result_ret.
  destruct (get_html_body (markdown E) fs options) as [[body o']|e] eqn:Hb;
    [|discriminate].
  intros H. injection H as _ <-. by eapply get_html_body_slug.
Qed.

(** A written file stays: processing only adds files. *)
Lemma generate_static_file_grows (options : GeneratorOptions) (fs fs' : FS) r out :
  generate_static_file E options fs = (r, fs', out) -> fs ⊆ fs'.
Proof.
  rewrite generate_static_file_eq.
  destruct (get_html _ _ fs options) as [[html o]|e]; [|by intros [= _ <- _]].
  destruct (exists_ fs (route_of E o)) eqn:Hex; [by intros [= _ <- _]|].
  intros [= _ <- _]. apply insert_subseteq.
  unfold exists_, isfile in Hex. apply orb_false_iff in Hex as [Hex _].
  apply bool_decide_eq_false in Hex. by apply eq_None_not_Some.
Qed.

Lemma process_grows (options : GeneratorOptions) (fs fs' : FS) r out :
  process E options fs = (r, fs', out) -> fs ⊆ fs'.
Proof.
  unfold process, mbind, M_bind, lift.
  destruct (load_metadata E fs options) as [o|e]; [|by intros [= _ <- _]].
  destruct (generate_static_file E o fs) as [[r' fs1] out1] eqn:Hg.
  apply generate_static_file_grows in Hg. by intros [= _ <- _].
Qed.

Lemma later_in_run_grows (fs fs' : FS) : later_in_run E fs fs' -> fs ⊆ fs'.
Proof.
  induction 1 as [fs|fs fs1 fs2 o o' out Hp _ IH]; [done|].
  etrans; [|exact IH]. by eapply process_grows.
Qed.

(** C4. When an input has been written in a run, a later input of the same
    slug that renders is not written: [generate_static_file] raises
    FileExistsError with the duplicate-route message, leaves the files as
    they are and prints nothing. *)
Theorem duplicate_route_refused
        (o1 o1' o2 : GeneratorOptions) (fs0 fs1 fs2 : FS) (out1 : list str)
        (html2 : str) (o2' : GeneratorOptions) :
  generate_static_file E o1 fs0 = (OK o1', fs1, out1) ->
  later_in_run E fs1 fs2 ->
  slug o2 = slug o1 ->
  get_html (markdown E) (indent E) fs2 o2 = OK (html2, o2') ->
  generate_static_file E o2 fs2
  = (Raise (Exn FileExistsError (duplicate_message (slug o2))), fs2, [])
  /\ exists_ fs2 (joinpath (DIST_DIRECTORY_PATH E) (slug o2 ++ lit ".html")) = true.
Proof.
  intros Hg1 Hlater Hslug Hhtml.
  assert (isfile fs2 (route_of E o2') = true) as Hfile.
  { rewrite generate_static_file_eq in Hg1.
    destruct (get_html _ _ fs0 o1) as [[html1 o]|e] eqn:Hh1; [|discriminate].
    destruct (exists_ fs0 (route_of E o)); [discriminate|].
    injection Hg1 as <- <- _.
    unfold isfile. apply bool_decide_eq_true. exists html1.
    eapply lookup_weaken; [|by apply later_in_run_grows].
    unfold route_of. rewrite (get_html_slug _ _ _ _ Hhtml), Hslug.
    rewrite <- (get_html_slug _ _ _ _ Hh1). apply lookup_insert_eq. }
  assert (exists_ fs2 (route_of E o2') = true) as Hex
      by (unfold exists_; by rewrite Hfile).
  split.
  - rewrite generate_static_file_eq, Hhtml, Hex.
    by rewrite (get_html_slug _ _ _ _ Hhtml).
  - unfold route_of in Hex. by rewrite (get_html_slug _ _ _ _ Hhtml) in Hex.
Qed.

End Writing.

Lemma duplicate_route_refused_witness :
  after_a_txt = (OK (set_title (lit "Hello") a_txt_options), after_a_txt.1.2, after_a_txt.2)
  /\ slug a_md_options = slug a_txt_options
  /\ generate_static_file sample_env a_md_options after_b_txt.1.2
     = (Raise (Exn FileExistsError (duplicate_message (slug a_md_options))),
        after_b_txt.1.2, [])
     /\ exists_ after_b_txt.1.2
                (joinpath (DIST_DIRECTORY_PATH sample_env) (slug a_md_options ++ lit ".html"))
        = true.
Proof.
  assert (after_a_txt
          = (OK (set_title (lit "Hello") a_txt_options), after_a_txt.1.2, after_a_txt.2))
    as H1 by (vm_compute; reflexivity).
  split; [exact H1|]. split; [reflexivity|].
  eapply (duplicate_route_refused sample_env a_txt_options _ a_md_options src_fs
            after_a_txt.1.2 after_b_txt.1.2).
  - exact H1.
  - apply (later_step sample_env after_a_txt.1.2 after_b_txt.1.2 after_b_txt.1.2
             (set_input_path (lit "in/b.txt") (set_title (lit "Hello") a_txt_options))
             (text_options (lit "in/b.txt") (lit "B\n"))
             after_b_txt.2); [|apply later_now].
    vm_compute. reflexivity.
  - reflexivity.
  - vm_compute. reflexivity.
Defined.

(** ** What a run keeps *)

Section Preserves.

Context (R : FS -> FS -> Prop) `{!Reflexive R} `{!Transitive R}.

Lemma preserves_ret {A} (a : A) : preserves R (mret a).
Proof. intros fs r fs' out [= _ <- _]. reflexivity. Qed.

Lemma preserves_raise {A} (e : exn) : preserves R (raise (A := A) e).
Proof. intros fs r fs' out [= _ <- _]. reflexivity. Qed.

Lemma preserves_read {A} (f : FS -> A) : preserves R (fun fs => (OK (f fs), fs, [])).
Proof. intros fs r fs' out [= _ <- _]. reflexivity. Qed.

Lemma preserves_lift {A} (f : FS -> result A) : preserves R (lift f).
Proof. intros fs r fs' out [= _ <- _]. reflexivity. Qed.

Lemma preserves_bind {A B} (m : M A) (f : A -> M B) :
  preserves R m -> (forall a, preserves R (f a)) -> preserves R (m ≫= f).
Proof.
  intros Hm Hf fs r fs' out. unfold mbind, M_bind.
  destruct (m fs) as [[[a|e] fs1] out1] eqn:Hmfs.
  - destruct (f a fs1) as [[r2 fs2] out2] eqn:Hfa. intros [= _ <- _].
    etrans; [by eapply Hm | by eapply Hf].
  - intros [= _ <- _]. by eapply Hm.
Qed.

Lemma preserves_path_isfile (p : option str) : preserves R (path_isfile p).
Proof. destruct p; [apply preserves_read | apply preserves_raise]. Qed.

Lemma preserves_path_isdir (p : option str) : preserves R (path_isdir p).
Proof. destruct p; [apply preserves_read | apply preserves_raise]. Qed.

Section Scan.

Variable E : Externals.
Hypothesis preserves_process : forall o, preserves R (process E o).

Lemma preserves_scan_files (files : list str) (o : GeneratorOptions) :
  preserves R (scan_files E files o).
Proof.
  revert o. induction files as [|f files IH]; intros o; cbn [scan_files].
  - apply preserves_ret.
  - apply preserves_bind; [apply preserves_process | exact IH].
Qed.

Lemma preserves_scan_extensions (dir : str) (exts : list str) (o : GeneratorOptions) :
  preserves R (scan_extensions E dir exts o).
Proof.
  revert o. induction exts as [|ext exts IH]; intros o; cbn [scan_extensions].
  - apply preserves_ret.
  - apply preserves_bind; [apply preserves_read|]. intros files.
    apply preserves_bind; [apply preserves_scan_files | exact IH].
Qed.

Lemma preserves_generate_inputs (o : GeneratorOptions) :
  preserves R (generate_inputs E o).
Proof.
  unfold generate_inputs.
  apply preserves_bind; [apply preserves_path_isfile|]. intros is_file.
  apply preserves_bind.
  { destruct (_ && _); [apply preserves_process | apply preserves_ret]. }
  intros o'. apply preserves_bind; [apply preserves_path_isdir|]. intros [|].
  - apply preserves_bind; [apply preserves_scan_extensions|]. intros _.
    apply preserves_ret.
  - apply preserves_ret.
Qed.

End Scan.

End Preserves.

Lemma same_outside_refl (d : str) : Reflexive (same_outside d).
Proof. by intros fs. Qed.

Lemma same_outside_trans (d : str) : Transitive (same_outside d).
Proof. unfold same_outside. intros f1 f2 f3 H12 H23. by rewrite H23. Qed.

Lemma rmtree_fs_idemp (d : str) (fs : FS) : rmtree_fs d (rmtree_fs d fs) = rmtree_fs d fs.
Proof.
  unfold rmtree_fs. apply map_filter_id. intros p x Hpx.
  by apply map_lookup_filter_Some in Hpx as [_ H].
Qed.

Lemma rmtree_fs_insert_under (d p text : str) (fs : FS) :
  under d p -> rmtree_fs d (<[p := text]> fs) = rmtree_fs d fs.
Proof. intros Hu. unfold rmtree_fs. apply map_filter_insert_not. intros y Hy. by apply Hy. Qed.

Lemma joinpath_under (d b : str) : relative b -> under d (joinpath d b).
Proof.
  unfold relative, joinpath, under. intros ->.
  rewrite (assoc app). by apply prefix_app_r.
Qed.

Lemma relative_app (a b : str) : relative a -> a ≠ [] -> relative (a ++ b).
Proof.
  unfold relative. destruct a as [|c a]; [done|]. intros H _. cbn [app].
  rewrite startswith_cons in *. rewrite startswith_nil in *.
  by rewrite andb_true_r in *.
Qed.

Lemma relative_html (slug : str) : relative slug -> relative (slug ++ lit ".html").
Proof.
  destruct slug as [|c a]; [intros _; by vm_compute|].
  intros H. by apply relative_app.
Qed.

Section CleanBuild.

Variable E : Externals.
Hypothesis relative_slugs :
  forall fs o o', load_metadata E fs o = OK o' -> relative (slug o').

Lemma generate_static_file_outside (o : GeneratorOptions) :
  relative (slug o) ->
  preserves (same_outside (DIST_DIRECTORY_PATH E)) (generate_static_file E o).
Proof.
  intros Hrel fs r fs' out. rewrite generate_static_file_eq.
  destruct (get_html _ _ fs o) as [[html o']|e] eqn:Hh; [|by intros [= _ <- _]].
  destruct (exists_ fs (route_of E o')); [by intros [= _ <- _]|].
  intros [= _ <- _]. unfold same_outside. apply rmtree_fs_insert_under.
  unfold route_of. apply joinpath_under, relative_html.
  by rewrite (get_html_slug E _ _ _ _ Hh).
Qed.

Lemma process_outside (o : GeneratorOptions) :
  preserves (same_outside (DIST_DIRECTORY_PATH E)) (process E o).
Proof.
  intros fs r fs' out. unfold process, mbind, M_bind, lift.
  destruct (load_metadata E fs o) as [o'|e] eqn:Hl; [|by intros [= _ <- _]].
  destruct (generate_static_file E o' fs) as [[r' fs1] out1] eqn:Hg.
  rewrite app_nil_l. intros [= _ <- _].
  eapply generate_static_file_outside; [|exact Hg]. by eapply relative_slugs.
Qed.

Lemma generate_inputs_outside (o : GeneratorOptions) :
  preserves (same_outside (DIST_DIRECTORY_PATH E)) (generate_inputs E o).
Proof.
  apply (@preserves_generate_inputs _ (same_outside_refl _) (same_outside_trans _)).
  apply process_outside.
Qed.

Lemma silkie_try_eq (i s l c : option str) (fs : FS) :
  silkie_try E i s l c fs
  = match GeneratorOptions_init E fs i s l c with
    | OK o => generate_inputs E o (rmtree_fs (DIST_DIRECTORY_PATH E) fs)
    | Raise e => (Raise e, fs, [])
    end.
Proof.
  unfold silkie_try, mbind, M_bind, lift, rmtree, makedirs, mret, M_ret.
  destruct (GeneratorOptions_init E fs i s l c) as [o|e]; [|done].
  by destruct (generate_inputs E o _) as [[r fs'] out].
Qed.

End CleanBuild.

(** ** Clean build *)

Lemma name_no_slash (p : str) : Forall (fun c => c ≠ slash) (name p).
Proof.
  unfold name. apply Forall_reverse.
  induction (reverse p) as [|c l IH]; cbn [take_while]; [constructor|].
  destruct (N.eqb_spec c slash) as [->|Hc]; cbn [negb]; constructor; done.
Qed.

Lemma stem_relative (p : str) : relative (stem p).
Proof.
  unfold relative, stem.
  pose proof (name_no_slash p) as Hn.
  destruct (take _ (name p)) as [|c r] eqn:Ht; [done|].
  rewrite startswith_cons, bool_decide_eq_false_2; [done|].
  intros <-.
  assert (slash ∈ name p) as Hin.
  { eapply (subseteq_take _ (name p)). rewrite Ht. apply list_elem_of_here. }
  by eapply Forall_forall in Hn.
Qed.

Lemma spec_load_metadata_relative (fs : FS) (o o' : GeneratorOptions) :
  spec_load_metadata fs o = OK o' -> relative (slug o').
Proof.
  unfold spec_load_metadata, mbind, result_bind, mret, result_ret.
  destruct (read_text fs (input_path o)); [|discriminate].
  intros [= <-]. apply stem_relative.
Qed.

(** C8. A second run on the files the first run left, with the same
    configuration, ends as the first did, leaves the same files and prints
    the same messages: the output directory is cleared at the start of each
    run and a run writes below that directory only. Slugs are relative paths
    (file stems). *)
Theorem regeneration_identical
        (E : Externals) (i s l c : option str) (fs0 fs1 : FS)
        (r : outcome) (out : list str) :
  (forall fs o o', load_metadata E fs o = OK o' -> relative (slug o')) ->
  silkie E i s l c fs0 = (r, fs1, out) ->
  GeneratorOptions_init E fs1 i s l c = GeneratorOptions_init E fs0 i s l c ->
  silkie E i s l c fs1 = (r, fs1, out).
Proof.
  intros Hrel Hrun Hcfg. unfold silkie in *. rewrite silkie_try_eq in *. rewrite Hcfg.
  destruct (GeneratorOptions_init E fs0 i s l c) as [o|e].
  - destruct (generate_inputs E o (rmtree_fs (DIST_DIRECTORY_PATH E) fs0))
      as [[r' fs'] out'] eqn:Hg.
    assert (fs1 = fs') as ->.
    { destruct r' as [?|e]; [congruence|].
      repeat destruct (isinstance e _); congruence. }
    pose proof (generate_inputs_outside E Hrel o _ _ _ _ Hg) as Hout.
    unfold same_outside in Hout. rewrite rmtree_fs_idemp in Hout.
    by rewrite Hout, Hg.
  - assert (fs1 = fs0) as -> by (repeat destruct (isinstance e _); congruence).
    exact Hrun.
Qed.

Lemma regeneration_identical_witness :
  dir_run = (Returned, dir_run.1.2, dir_run.2)
  /\ silkie sample_env (Some (lit "in")) None None None dir_run.1.2
     = (Returned, dir_run.1.2, dir_run.2).
Proof.
  assert (dir_run = (Returned, dir_run.1.2, dir_run.2)) as H by (vm_compute; reflexivity).
  split; [exact H|].
  apply (regeneration_identical sample_env (Some (lit "in")) None None None fs_ex).
  - exact spec_load_metadata_relative.
  - exact H.
  - vm_compute. reflexivity.
Defined.

(** ** Errors *)

Lemma split_go_feed_length (cur s : str) :
  length (split_go [nl] 0 cur s) = S (length (filter (fun c => c = nl) s)).
Proof.
  revert cur. induction s as [|c s IH]; intros cur; [done|].
  cbn [split_go]. rewrite startswith_cons, startswith_nil, andb_true_r.
  case_bool_decide as Hc.
  - subst c. cbn [length]. rewrite filter_cons_True by done.
    cbn [length Nat.sub]. by rewrite IH.
  - rewrite filter_cons_False by congruence. apply IH.
Qed.

(** One [click.echo] prints one line more than its message has line feeds. *)
Lemma console_lines_length (message : str) :
  length (console_lines message) = S (length (filter (fun c => c = nl) message)).
Proof. apply split_go_feed_length. Qed.

Lemma scan_files_stops (E : Externals) (files1 files2 : list str) (filepath : str)
      (o o1 : GeneratorOptions) (fs fs1 fs2 : FS) (out1 out2 : list str) (e : exn) :
  scan_files E files1 o fs = (OK o1, fs1, out1) ->
  process E (set_input_path filepath o1) fs1 = (Raise e, fs2, out2) ->
  scan_files E (files1 ++ filepath :: files2) o fs = (Raise e, fs2, out1 ++ out2).
Proof.
  revert o fs out1. induction files1 as [|g files1 IH]; intros o fs out1 H1 H2.
  - injection H1 as <- <- <-. cbn [app scan_files]. unfold mbind, M_bind. by rewrite H2.
  - cbn [app scan_files] in *. unfold mbind, M_bind in *.
    destruct (process E (set_input_path g o) fs) as [[[o'|e'] fs'] out'] eqn:Hp;
      [|discriminate].
    destruct (scan_files E files1 o' fs') as [[r1 fs1'] out1'] eqn:Hs.
    injection H1 as -> <- <-.
    rewrite (IH o' fs' out1' Hs H2). by rewrite (assoc app).
Qed.

Lemma scan_extensions_stops (E : Externals) (dir ext : str) (exts : list str)
      (o : GeneratorOptions) (fs fs' : FS) (out : list str) (e : exn) :
  scan_files E (glob E fs (path_join dir (lit "*" ++ ext))) o fs = (Raise e, fs', out) ->
  scan_extensions E dir (ext :: exts) o fs = (Raise e, fs', out).
Proof. intros H. cbn [scan_extensions]. unfold mbind, M_bind. by rewrite H. Qed.

(** The report fails on the run over [fs_ex]: the duplicate route of
    [in/a.md] is caught and its message fills two console lines. *)
Lemma error_report_counterexample :
  ~ error_report_as_stated sample_env (Some (lit "in")) None None None fs_ex.
Proof.
  intros H.
  set (t := silkie_try sample_env (Some (lit "in")) None None None fs_ex).
  assert (t = (Raise (Exn FileExistsError (duplicate_message (lit "a"))), t.1.2, t.2))
    as Ht by (vm_compute; reflexivity).
  destruct (H _ _ _ Ht eq_refl) as (message & Hs & Hlen).
  assert (last (silkie sample_env (Some (lit "in")) None None None fs_ex).2
          = Some (failure_message sample_env
                    (Exn FileExistsError (duplicate_message (lit "a")))))
    as Hm by (vm_compute; reflexivity).
  assert (last (silkie sample_env (Some (lit "in")) None None None fs_ex).2
          = Some message) as Hm'.
  { exact (eq_trans (f_equal (fun x => last x.2) Hs) (last_snoc _ _)). }
  assert (message = failure_message sample_env
                      (Exn FileExistsError (duplicate_message (lit "a")))) as ->.
  { exact (Some_inj _ _ (eq_trans (eq_sym Hm') Hm)). }
  clear -Hlen. vm_compute in Hlen. discriminate.
Qed.

(** C7, amended. An error of the taxonomy raised in the body of the command
    is caught: the command returns and prints one message after those
    already printed, the cross mark and the text of the error between the
    failure colour and its end. An error raised while a file of a directory
    is processed ends the scan of the files and of the extensions: the files
    after it are not processed. The message of a duplicate route is of the
    taxonomy and fills at least two console lines. *)
Theorem errors_reported (E : Externals) :
  (forall i s l c fs e fs' out,
      silkie_try E i s l c fs = (Raise e, fs', out) ->
      in_taxonomy e = true ->
      silkie E i s l c fs = (Returned, fs', out ++ [failure_message E e]))
  /\ (forall files1 filepath files2 o o1 fs fs1 out1 e fs2 out2,
         scan_files E files1 o fs = (OK o1, fs1, out1) ->
         process E (set_input_path filepath o1) fs1 = (Raise e, fs2, out2) ->
         scan_files E (files1 ++ filepath :: files2) o fs = (Raise e, fs2, out1 ++ out2))
  /\ (forall dir ext exts o fs e fs' out,
         scan_files E (glob E fs (path_join dir (lit "*" ++ ext))) o fs
         = (Raise e, fs', out) ->
         scan_extensions E dir (ext :: exts) o fs = (Raise e, fs', out))
  /\ (forall slug,
         in_taxonomy (Exn FileExistsError (duplicate_message slug)) = true
         /\ (2 <= length (console_lines
                            (failure_message E
                               (Exn FileExistsError (duplicate_message slug)))))%nat).
Proof.
  split; [|split; [|split]].
  - intros i s l c fs e fs' out Hrun Htax. unfold silkie. rewrite Hrun.
    destruct e as [[] msg]; try discriminate Htax; reflexivity.
  - intros *. apply scan_files_stops.
  - intros *. apply scan_extensions_stops.
  - intros slug. split; [reflexivity|].
    rewrite console_lines_length. unfold failure_message, duplicate_message.
    cbn [exn_msg]. rewrite !filter_app, !length_app.
    assert (1 <= length (filter (fun c => c = nl) (lit "warn: Duplicate routes found!\n")))%nat
      by (vm_compute; lia).
    lia.
Qed.

Lemma errors_reported_witness :
  silkie_try sample_env (Some (lit "in")) None None None fs_ex
  = (Raise (Exn FileExistsError (duplicate_message (lit "a"))),
     (silkie_try sample_env (Some (lit "in")) None None None fs_ex).1.2,
     (silkie_try sample_env (Some (lit "in")) None None None fs_ex).2)
  /\ silkie sample_env (Some (lit "in")) None None None fs_ex
     = (Returned,
        (silkie_try sample_env (Some (lit "in")) None None None fs_ex).1.2,
        (silkie_try sample_env (Some (lit "in")) None None None fs_ex).2
        ++ [failure_message sample_env
              (Exn FileExistsError (duplicate_message (lit "a")))]).
Proof.
  assert (silkie_try sample_env (Some (lit "in")) None None None fs_ex
          = (Raise (Exn FileExistsError (duplicate_message (lit "a"))),
             (silkie_try sample_env (Some (lit "in")) None None None fs_ex).1.2,
             (silkie_try sample_env (Some (lit "in")) None None None fs_ex).2))
    as H by (vm_compute; reflexivity).
  split; [exact H|].
  exact (proj1 (errors_reported sample_env) _ _ _ _ _ _ _ _ H eq_refl).
Defined.

(** ** No flags *)




(** * Further properties *)

(** ** Rendering *)

Lemma doc_texts_of_app (t : string) (d1 d2 : list node) :
  doc_texts_of t (d1 ++ d2) = doc_texts_of t d1 ++ doc_texts_of t d2.
Proof. unfold doc_texts_of. by rewrite map_app, concat_app. Qed.

Lemma doc_texts_of_lines_same (t : string) (l : list str) :
  doc_texts_of t (map (line t) l) = l.
Proof.
  unfold doc_texts_of. induction l as [|x l IH]; [done|].
  cbn [map concat texts_of line]. rewrite String.eqb_refl. cbn. by rewrite IH.
Qed.

Lemma doc_texts_of_lines_other (t u : string) (l : list str) :
  String.eqb u t = false -> doc_texts_of t (map (line u) l) = [].
Proof.
  intros Hne. unfold doc_texts_of. induction l as [|x l IH]; [done|].
  cbn [map concat texts_of line]. rewrite Hne. cbn. exact IH.
Qed.

Lemma doc_texts_of_head_title (options : GeneratorOptions) :
  doc_texts_of "title" (get_html_head options) = [title options].
Proof. unfold doc_texts_of. cbn. by destruct (stylesheet_url options). Qed.

Lemma doc_texts_of_head_other (t : string) (options : GeneratorOptions) :
  String.eqb "title" t = false -> String.eqb "head" t = false ->
  doc_texts_of t (get_html_head options) = [].
Proof.
  intros Ht Hh. unfold doc_texts_of, get_html_head.
  cbn [map concat texts_of]. rewrite Hh. rewrite !app_nil_r, app_nil_l.
  rewrite map_app, concat_app. cbn [map concat texts_of]. rewrite Ht.
  destruct (stylesheet_url options); reflexivity.
Qed.

Lemma doc_texts_of_cons (t : string) (n : node) (d : list node) :
  doc_texts_of t (n :: d) = texts_of t n ++ doc_texts_of t d.
Proof. reflexivity. Qed.

Lemma texts_of_Elem_other (t u : string) (a : list (string * str)) (ch : list node) :
  String.eqb u t = false -> texts_of t (Elem u a ch) = doc_texts_of t ch.
Proof. intros Hne. cbn [texts_of]. by rewrite Hne. Qed.

(** The texts of the elements named [t] in the document around a body. *)
Lemma doc_texts_of_document (t : string) (l : str) (head body : list node) :
  String.eqb "html" t = false -> String.eqb "body" t = false ->
  doc_texts_of t [Asis (lit "<!DOCTYPE html>");
                  Elem "html" [("lang"%string, l)] (head ++ [Elem "body" [] body])]
  = doc_texts_of t head ++ doc_texts_of t body.
Proof.
  intros Hh Hb.
  rewrite !doc_texts_of_cons, (texts_of_Elem_other t "html") by done.
  rewrite doc_texts_of_app, doc_texts_of_cons, (texts_of_Elem_other t "body") by done.
  cbn [texts_of doc_texts_of map concat app]. by rewrite !app_nil_r.
Qed.

(** X1. In the document of a [.txt] input the [title] element holds the
    title the options had before rendering, the [h1] element holds the title
    extracted from the file, and the options returned carry the extracted
    title: the head is built before [parse_text] assigns the title. *)
Theorem head_title_is_the_earlier_one
        (md : str -> str) (fs : FS) (options : GeneratorOptions) (p text : str) :
  input_path options = Some p -> suffix p = lit ".txt" -> fs !! p = Some text ->
  exists doc,
    get_html_doc md fs options = OK (doc, set_title (title_of text) options)
    /\ doc_texts_of "title" doc = [title options]
    /\ doc_texts_of "h1" doc = (if bool_decide (title_of text = []) then []
                                else [title_of text]).
Proof.
  intros Hp Hs Ht.
  rewrite get_html_doc_body, (get_html_body_txt md fs options p text Hp Hs Ht).
  eexists. split; [reflexivity|]. split.
  - rewrite doc_texts_of_document by reflexivity.
    rewrite doc_texts_of_head_title, doc_texts_of_app.
    rewrite (doc_texts_of_lines_other "title" "p") by reflexivity.
    case_bool_decide; reflexivity.
  - rewrite doc_texts_of_document by reflexivity.
    rewrite doc_texts_of_head_other by reflexivity.
    rewrite doc_texts_of_app, (doc_texts_of_lines_other "h1" "p") by reflexivity.
    case_bool_decide; reflexivity.
Qed.

Lemma head_title_is_the_earlier_one_witness :
  suffix hello_path = lit ".txt"
  /\ exists doc,
      get_html_doc id hello_fs hello_options
      = OK (doc, set_title (title_of hello_text) hello_options)
      /\ doc_texts_of "title" doc = [title hello_options]
      /\ doc_texts_of "h1" doc = (if bool_decide (title_of hello_text = []) then []
                                  else [title_of hello_text]).
Proof.
  split; [by vm_compute|].
  apply (head_title_is_the_earlier_one id hello_fs hello_options hello_path hello_text);
    by vm_compute.
Defined.



(** ** Paragraphs *)

Lemma split_go_skip (sep : str) (k : nat) (cur s : str) :
  split_go sep k cur s = split_go sep 0 cur (drop k s).
Proof.
  revert k. induction s as [|c s IH]; intros k.
  - by rewrite drop_nil.
  - destruct k as [|k]; [done|]. cbn [split_go drop]. apply IH.
Qed.

Lemma split_go_not_nil (sep : str) (k : nat) (cur s : str) : split_go sep k cur s ≠ [].
Proof.
  revert k cur. induction s as [|c s IH]; intros k cur; [done|].
  cbn [split_go]. destruct k as [|k]; [|apply IH].
  destruct (startswith sep (c :: s)); [done|apply IH].
Qed.

Lemma join_cons (sep x : str) (rest : list str) :
  rest ≠ [] -> join sep (x :: rest) = x ++ sep ++ join sep rest.
Proof. by destruct rest. Qed.

(** Joining the pieces of a split gives the text back. *)
Lemma join_split_go (sep : str) :
  sep ≠ [] ->
  forall (n : nat) (s cur : str),
    (length s <= n)%nat -> join sep (split_go sep 0 cur s) = reverse cur ++ s.
Proof.
  intros Hsep. induction n as [|n IH]; intros s cur Hn.
  - destruct s; [|cbn in Hn; lia]. cbn. by rewrite app_nil_r.
  - destruct s as [|c s]; [cbn; by rewrite app_nil_r|].
    cbn [split_go]. destruct (startswith sep (c :: s)) eqn:Hst.
    + unfold startswith in Hst. apply bool_decide_eq_true in Hst as [t Ht].
      destruct sep as [|c0 sep']; [done|]. injection Ht as -> ->.
      rewrite join_cons by apply split_go_not_nil.
      rewrite split_go_skip. cbn [length Nat.sub]. rewrite ?Nat.sub_0_r, drop_app_length.
      rewrite (IH t []); [done|]. cbn [length] in Hn. rewrite length_app in Hn. lia.
    + rewrite (IH s (c :: cur)) by (cbn [length] in Hn; lia).
      by rewrite reverse_cons, <- (assoc app).
Qed.

Lemma join_split (sep s : str) : sep ≠ [] -> join sep (split sep s) = s.
Proof. intros Hsep. exact (join_split_go sep Hsep (length s) s [] (le_n _)). Qed.

Lemma doc_texts_of_text_body (title paragraphs : list str) :
  doc_texts_of "p" (map (line "h1") title ++ map (line "p") paragraphs) = paragraphs.
Proof.
  rewrite doc_texts_of_app, (doc_texts_of_lines_other "p" "h1") by reflexivity.
  apply doc_texts_of_lines_same.
Qed.

Lemma text_body_shape (md : str -> str) (fs : FS) (options : GeneratorOptions)
      (p text : str) :
  input_path options = Some p -> suffix p = lit ".txt" -> fs !! p = Some text ->
  get_html_body md fs options
  = OK (map (line "h1") (if bool_decide (title_of text = []) then [] else [title_of text])
        ++ map (line "p") (paragraphs_of (content options) (title_of text)),
        set_title (title_of text) options).
Proof.
  intros Hp Hs Ht. rewrite (get_html_body_txt md fs options p text Hp Hs Ht).
  by case_bool_decide.
Qed.

(** X3. For a [.txt] input the body always has at least one paragraph, and
    its paragraphs, joined by blank lines, are the stripped slice of the
    content (the content without its last character and without its first
    [len(title) + 1] characters): the split loses no character of it and
    keeps the order. *)
Theorem paragraphs_join_back
        (md : str -> str) (fs : FS) (options : GeneratorOptions) (p text : str) :
  input_path options = Some p -> suffix p = lit ".txt" -> fs !! p = Some text ->
  exists body,
    get_html_body md fs options = OK (body, set_title (title_of text) options)
    /\ doc_texts_of "p" body ≠ []
    /\ join (lit "\n\n") (doc_texts_of "p" body)
       = strip (drop (S (length (title_of text))) (removelast (content options))).
Proof.
  intros Hp Hs Ht. rewrite (text_body_shape md fs options p text Hp Hs Ht).
  eexists. split; [reflexivity|]. rewrite doc_texts_of_text_body.
  unfold paragraphs_of. rewrite slice_drop_removelast. split.
  - apply split_go_not_nil.
  - apply join_split. by vm_compute.
Qed.

Lemma paragraphs_join_back_witness :
  suffix hello_path = lit ".txt"
  /\ exists body,
      get_html_body id hello_fs hello_options
      = OK (body, set_title (title_of hello_text) hello_options)
      /\ doc_texts_of "p" body ≠ []
      /\ join (lit "\n\n") (doc_texts_of "p" body)
         = strip (drop (S (length (title_of hello_text)))
                       (removelast (content hello_options))).
Proof.
  split; [by vm_compute|].
  apply (paragraphs_join_back id hello_fs hello_options hello_path hello_text);
    by vm_compute.
Defined.

(** X4. A [.txt] input whose content has at most [len(title) + 2]
    characters renders as one empty paragraph: the slice is empty, and the
    split of the empty string is one empty piece. Without a title, a content
    of one or two characters is lost whole. *)
Theorem short_content_one_empty_paragraph
        (md : str -> str) (fs : FS) (options : GeneratorOptions) (p text : str) :
  input_path options = Some p -> suffix p = lit ".txt" -> fs !! p = Some text ->
  (length (content options) <= length (title_of text) + 2)%nat ->
  exists body,
    get_html_body md fs options = OK (body, set_title (title_of text) options)
    /\ doc_texts_of "p" body = [[]].
Proof.
  intros Hp Hs Ht Hlen. rewrite (text_body_shape md fs options p text Hp Hs Ht).
  eexists. split; [reflexivity|]. rewrite doc_texts_of_text_body.
  unfold paragraphs_of. rewrite slice_drop_removelast, drop_ge; [done|].
  rewrite removelast_firstn_len. change (firstn ?k ?l) with (take k l).
  rewrite length_take. lia.
Qed.

Lemma short_content_one_empty_paragraph_witness :
  (length (lit "Hi") <= length (title_of (lit "Hi")) + 2)%nat
  /\ exists body,
      get_html_body id {[ lit "hi.txt" := lit "Hi" ]}
                    (text_options (lit "hi.txt") (lit "Hi"))
      = OK (body, set_title (title_of (lit "Hi")) (text_options (lit "hi.txt") (lit "Hi")))
      /\ doc_texts_of "p" body = [[]].
Proof.
  assert (length (lit "Hi") <= length (title_of (lit "Hi")) + 2)%nat as H
      by (vm_compute; lia).
  split; [exact H|].
  apply (short_content_one_empty_paragraph id {[ lit "hi.txt" := lit "Hi" ]}
           (text_options (lit "hi.txt") (lit "Hi")) (lit "hi.txt") (lit "Hi"));
    [by vm_compute | by vm_compute | by vm_compute | exact H].
Defined.

(** ** Escaping *)

Lemma count_char_app (c : char) (a b : str) :
  count_char c (a ++ b) = (count_char c a + count_char c b)%nat.
Proof. unfold count_char. by rewrite filter_app, length_app. Qed.

Lemma count_char_absent (c : char) (s : str) :
  (forall x, x ∈ s -> x ≠ c) -> count_char c s = 0%nat.
Proof.
  unfold count_char. induction s as [|x s IH]; intros H; [done|].
  rewrite filter_cons_False by (apply H; apply list_elem_of_here).
  apply IH. intros y Hy. apply H. by apply list_elem_of_further.
Qed.

Lemma count_char_html_escape (s : str) :
  count_char 60 (html_escape s) = 0%nat /\ count_char 62 (html_escape s) = 0%nat.
Proof.
  split; apply count_char_absent; intros x Hx; by apply html_escape_no_markup in Hx as [??].
Qed.

(** A line of a tag without angle brackets in its name has two of each. *)
Lemma count_char_line (t : string) (text : str) :
  count_char 60 (lit t) = 0%nat -> count_char 62 (lit t) = 0%nat ->
  count_char 60 (render (line t text)) = 2%nat
  /\ count_char 62 (render (line t text)) = 2%nat.
Proof.
  intros Hlt Hgt. rewrite render_line.
  destruct (count_char_html_escape text) as [Hl Hg].
  rewrite !count_char_app, Hlt, Hgt, Hl, Hg. split; reflexivity.
Qed.

Lemma count_char_lines (t : string) (l : list str) :
  count_char 60 (lit t) = 0%nat -> count_char 62 (lit t) = 0%nat ->
  count_char 60 (getvalue (map (line t) l)) = (2 * length l)%nat
  /\ count_char 62 (getvalue (map (line t) l)) = (2 * length l)%nat.
Proof.
  intros Hlt Hgt. unfold getvalue. induction l as [|x l [IHl IHg]]; [done|].
  cbn [map concat]. destruct (count_char_line t x Hlt Hgt) as [Hl Hg].
  rewrite !count_char_app, Hl, Hg, IHl, IHg. cbn [length]. split; lia.
Qed.

Lemma getvalue_app (d1 d2 : list node) : getvalue (d1 ++ d2) = getvalue d1 ++ getvalue d2.
Proof. unfold getvalue. by rewrite map_app, concat_app. Qed.

(** X5. In the rendered body of a [.txt] input every angle bracket belongs
    to a tag: the string has two opening and two closing brackets for each
    element of the body, whatever the text of the file holds. *)
Theorem text_body_brackets
        (md : str -> str) (fs : FS) (options : GeneratorOptions) (p text : str) :
  input_path options = Some p -> suffix p = lit ".txt" -> fs !! p = Some text ->
  exists body,
    get_html_body md fs options = OK (body, set_title (title_of text) options)
    /\ count_char 60 (getvalue body) = (2 * length body)%nat
    /\ count_char 62 (getvalue body) = (2 * length body)%nat.
Proof.
  intros Hp Hs Ht. rewrite (text_body_shape md fs options p text Hp Hs Ht).
  eexists. split; [reflexivity|].
  rewrite getvalue_app, !count_char_app, length_app.
  destruct (count_char_lines "h1"
              (if bool_decide (title_of text = []) then [] else [title_of text]))
    as [H1 H2]; [reflexivity..|].
  destruct (count_char_lines "p" (paragraphs_of (content options) (title_of text)))
    as [H3 H4]; [reflexivity..|].
  rewrite H1, H2, H3, H4, !length_map. split; lia.
Qed.

Lemma text_body_brackets_witness :
  suffix (lit "t.txt") = lit ".txt"
  /\ exists body,
      get_html_body id {[ lit "t.txt" := lit "<b>T</b>\n\n\n<i>a</i> & b\n" ]}
                    (text_options (lit "t.txt") (lit "<b>T</b>\n\n\n<i>a</i> & b\n"))
      = OK (body, set_title (title_of (lit "<b>T</b>\n\n\n<i>a</i> & b\n"))
                            (text_options (lit "t.txt")
                                          (lit "<b>T</b>\n\n\n<i>a</i> & b\n")))
      /\ count_char 60 (getvalue body) = (2 * length body)%nat
      /\ count_char 62 (getvalue body) = (2 * length body)%nat.
Proof.
  split; [by vm_compute|].
  apply (text_body_brackets id {[ lit "t.txt" := lit "<b>T</b>\n\n\n<i>a</i> & b\n" ]}
           (text_options (lit "t.txt") (lit "<b>T</b>\n\n\n<i>a</i> & b\n"))
           (lit "t.txt") (lit "<b>T</b>\n\n\n<i>a</i> & b\n")); by vm_compute.
Defined.

(** ** Well-formed texts *)

Lemma take_while_app_stop {A} (p : A -> bool) (l r : list A) (x : A) :
  forallb p l = true -> p x = false -> take_while p (l ++ x :: r) = l.
Proof.
  intros Hl Hx. induction l as [|y l IH]; cbn [app take_while forallb] in *.
  - by rewrite Hx.
  - apply andb_true_iff in Hl as [Hy Hl]. rewrite Hy. f_equal. by apply IH.
Qed.

Lemma drop_while_app_stop {A} (p : A -> bool) (l r : list A) (x : A) :
  forallb p l = true -> p x = false -> drop_while p (l ++ x :: r) = x :: r.
Proof.
  intros Hl Hx. rewrite drop_while_app, Hl. cbn [drop_while]. by rewrite Hx.
Qed.

(** A text is what [rstrip] keeps of it followed by white space. *)
Lemma rstrip_decompose (s : str) :
  exists ws, s = rstrip s ++ ws /\ forallb isspace ws = true.
Proof.
  exists (reverse (take_while isspace (reverse s))). split.
  - unfold rstrip. rewrite <- reverse_app, take_drop_while. by rewrite reverse_involutive.
  - rewrite forallb_reverse. clear. induction (reverse s) as [|x l IH]; [done|].
    cbn [take_while]. destruct (isspace x) eqn:Hx; [|done]. cbn [forallb]. by rewrite Hx.
Qed.

(** Leading white space does not change what [strip] returns. *)
Lemma strip_space_app (ws s : str) :
  forallb isspace ws = true -> strip (ws ++ s) = strip s.
Proof. intros Hws. unfold strip, lstrip. by rewrite drop_while_app, Hws. Qed.

Lemma strip_all_space (ws : str) : forallb isspace ws = true -> strip ws = [].
Proof. intros Hws. by apply strip_nil_iff. Qed.

Lemma forallb_drop {A} (p : A -> bool) (n : nat) (l : list A) :
  forallb p l = true -> forallb p (drop n l) = true.
Proof.
  rewrite !forallb_forall. intros H x Hx. apply H.
  apply list_elem_of_In. apply list_elem_of_In in Hx. by eapply subseteq_drop.
Qed.

(** X6. On a well-formed titled text the renderer does what its docstring
    says. When the file starts with a line without leading white space,
    followed by three line feeds and the rest, and ends with a white-space
    character (a final line feed, say), the body is the [h1] of that line
    without its trailing white space, followed by one paragraph for each
    piece of the stripped rest split on blank lines: nothing of the rest is
    lost. *)
Theorem well_formed_text_body
        (md : str -> str) (fs : FS) (options : GeneratorOptions)
        (p first rest : str) (x : char) :
  input_path options = Some p -> suffix p = lit ".txt" ->
  fs !! p = Some (first ++ [nl; nl; nl] ++ rest) ->
  content options = first ++ [nl; nl; nl] ++ rest ->
  first ≠ [] -> forallb dot first = true -> lstrip first = first ->
  last (first ++ [nl; nl; nl] ++ rest) = Some x -> isspace x = true ->
  get_html_body md fs options
  = OK (line "h1" (rstrip first)
          :: map (line "p") (split (lit "\n\n") (strip rest)),
        set_title (rstrip first) options).
Proof.
  intros Hp Hs Ht Hc Hne Hdot Hl Hlast Hx.
  set (text := first ++ [nl; nl; nl] ++ rest) in *.
  assert (first_line text = first) as Hfl.
  { unfold first_line, text. by apply take_while_app_stop. }
  assert (after_first_line text = [nl; nl; nl] ++ rest) as Hafl.
  { unfold after_first_line, text. by apply drop_while_app_stop. }
  assert (title_of text = rstrip first) as Htitle.
  { rewrite title_of_pattern. unfold title_pattern. rewrite Hfl, Hafl.
    rewrite bool_decide_eq_true_2 by done. cbn [app].
    rewrite !startswith_cons, startswith_nil, !bool_decide_eq_true_2 by done.
    cbn [andb]. unfold strip. by rewrite Hl. }
  assert (rstrip first ≠ []) as Hnb.
  { intros Hnil. assert (strip first = []) as Hs0 by (unfold strip; by rewrite Hl).
    apply strip_nil_iff in Hs0. unfold blank in Hs0.
    pose proof (drop_while_head isspace first) as Hh. fold (lstrip first) in Hh.
    rewrite Hl in Hh. destruct first as [|c f]; [done|].
    cbn [forallb] in Hs0. rewrite Hh in Hs0. discriminate. }
  rewrite (get_html_body_txt md fs options p text Hp Hs Ht), Htitle.
  rewrite bool_decide_eq_false_2 by done. cbn [app]. f_equal. f_equal. f_equal.
  unfold paragraphs_of. rewrite slice_drop_removelast, Hc. f_equal.
  destruct (rstrip_decompose first) as (ws & Hfirst & Hws).
  set (t := rstrip first) in *.
  assert (text = t ++ (ws ++ [nl; nl; nl] ++ rest)) as Htext.
  { unfold text. rewrite Hfirst at 1. by rewrite <- (assoc app). }
  fold text. rewrite Htext in Hlast |- *.
  rewrite removelast_app by (by destruct ws).
  rewrite last_app in Hlast.
  destruct (last (ws ++ [nl; nl; nl] ++ rest)) as [y|] eqn:Hlw;
    [|apply last_None in Hlw; by destruct ws]. injection Hlast as ->.
  apply last_Some in Hlw as [w' Hw']. rewrite Hw', removelast_last.
  replace (S (length t)) with (length t + 1)%nat by lia.
  rewrite drop_app_add.
  destruct (decide (rest = [])) as [->|Hrest].
  - rewrite app_nil_r in Hw'.
    assert (w' = ws ++ [nl; nl]) as ->.
    { change (ws ++ [nl; nl; nl]) with (ws ++ [nl; nl] ++ [nl]) in Hw'.
      rewrite (assoc app) in Hw'. by apply app_inj_tail in Hw' as [? _]. }
    rewrite strip_all_space; [by vm_compute|].
    apply forallb_drop. rewrite forallb_app, Hws. reflexivity.
  - destruct (last rest) as [z|] eqn:Hlr; [|by apply last_None in Hlr].
    apply last_Some in Hlr as [r ->].
    rewrite !(assoc app) in Hw'. apply app_inj_tail in Hw' as [<- <-].
    rewrite <- !(assoc app). rewrite (assoc app ws).
    rewrite drop_app_le by (rewrite length_app; cbn; lia).
    rewrite strip_space_app.
    + symmetry. f_equal. apply strip_app_space. cbn. by rewrite Hx.
    + apply forallb_drop. rewrite forallb_app, Hws. reflexivity.
Qed.

Lemma well_formed_text_body_witness :
  last (lit "Hello" ++ [nl; nl; nl] ++ lit "World\n\nFoo bar\n") = Some nl
  /\ get_html_body id
       {[ lit "w.txt" := lit "Hello" ++ [nl; nl; nl] ++ lit "World\n\nFoo bar\n" ]}
       (text_options (lit "w.txt") (lit "Hello" ++ [nl; nl; nl] ++ lit "World\n\nFoo bar\n"))
     = OK (line "h1" (rstrip (lit "Hello"))
             :: map (line "p") (split (lit "\n\n") (strip (lit "World\n\nFoo bar\n"))),
           set_title (rstrip (lit "Hello"))
                     (text_options (lit "w.txt")
                        (lit "Hello" ++ [nl; nl; nl] ++ lit "World\n\nFoo bar\n"))).
Proof.
  split; [by vm_compute|].
  apply (well_formed_text_body id
           {[ lit "w.txt" := lit "Hello" ++ [nl; nl; nl] ++ lit "World\n\nFoo bar\n" ]}
           (text_options (lit "w.txt")
              (lit "Hello" ++ [nl; nl; nl] ++ lit "World\n\nFoo bar\n"))
           (lit "w.txt") (lit "Hello") (lit "World\n\nFoo bar\n") nl);
    by vm_compute.
Defined.

(** ** Writing one file *)



(** X8. A [.txt] input whose file is missing is not rendered:
    [generate_static_file] raises the FileNotFoundError of [open], writes
    nothing and prints nothing; the command catches this error. *)
Theorem missing_text_input
        (E : Externals) (o : GeneratorOptions) (fs : FS) (p : str) :
  input_path o = Some p -> suffix p = lit ".txt" -> fs !! p = None ->
  generate_static_file E o fs = (Raise (not_found p), fs, [])
  /\ caught (not_found p) = true.
Proof.
  intros Hp Hs Hf. split; [|reflexivity].
  rewrite generate_static_file_eq.
  assert (get_html (markdown E) (indent E) fs o = Raise (not_found p)) as ->; [|done].
  unfold get_html, get_html_doc, get_html_body, file_extension_of, mbind, result_bind.
  rewrite Hp, Hs, bool_decide_eq_true_2 by done.
  unfold parse_text, get_title, read_text, mbind, result_bind. by rewrite Hp, Hf.
Qed.

Lemma missing_text_input_witness :
  (∅ : FS) !! hello_path = None
  /\ generate_static_file sample_env hello_options ∅ = (Raise (not_found hello_path), ∅, [])
  /\ caught (not_found hello_path) = true.
Proof.
  split; [reflexivity|].
  apply (missing_text_input sample_env hello_options ∅ hello_path); by vm_compute.
Defined.

(** ** The command *)




Lemma rmtree_fs_lookup_under (d p : str) (fs : FS) :
  under d p -> rmtree_fs d fs !! p = None.
Proof.
  intros Hp. unfold rmtree_fs. apply eq_None_not_Some. intros [x Hx].
  apply map_lookup_filter_Some in Hx as [_ Hn]. by apply Hn.
Qed.




(** ** The output directory *)

Section Tally.

Variable d : str.




Lemma tallies_lift {A} (f : FS -> result A) : tallies d (lift f).
Proof. intros fs r fs' out [= _ <- <-]. cbn [length]. lia. Qed.




Variable E : Externals.
Hypothesis tallies_process : forall o, tallies d (process E o).




End Tally.



Section TallyRun.

Variable E : Externals.
Hypothesis relative_slugs :
  forall fs o o', load_metadata E fs o = OK o' -> relative (slug o').




End TallyRun.


(** ** Inputs that generate nothing *)

Lemma generate_inputs_skips (E : Externals) (o : GeneratorOptions) (p : str) (fs : FS) :
  input_path o = Some p ->
  isfile fs p && is_filetype_supported E p = false ->
  isdir fs p = false ->
  generate_inputs E o fs = (OK tt, fs, []).
Proof.
  intros Hp Hf Hd. unfold generate_inputs, mbind, M_bind. rewrite Hp.
  cbn [path_isfile from_option]. rewrite Hf.
  unfold mret, M_ret. rewrite Hp. cbn [path_isdir]. by rewrite Hd.
Qed.

Lemma silkie_skips (E : Externals) (i s l c : option str) (fs : FS)
      (o : GeneratorOptions) (p : str) :
  GeneratorOptions_init E fs i s l c = OK o ->
  input_path o = Some p ->
  isfile (rmtree_fs (DIST_DIRECTORY_PATH E) fs) p && is_filetype_supported E p = false ->
  isdir (rmtree_fs (DIST_DIRECTORY_PATH E) fs) p = false ->
  silkie E i s l c fs = (Returned, rmtree_fs (DIST_DIRECTORY_PATH E) fs, []).
Proof.
  intros Hinit Hp Hf Hd. unfold silkie.
  by rewrite silkie_try_eq, Hinit, (generate_inputs_skips E o p _ Hp Hf Hd).
Qed.



Lemma under_trans (d p q : str) : under d p -> under p q -> under d q.
Proof.
  unfold under. intros Hdp Hpq. etrans; [exact Hdp|].
  etrans; [|exact Hpq]. by apply prefix_app_r.
Qed.

Lemma isfile_rmtree_under (d p : str) (fs : FS) :
  under d p -> isfile (rmtree_fs d fs) p = false.
Proof.
  intros Hp. unfold isfile. rewrite (rmtree_fs_lookup_under d p fs Hp).
  apply bool_decide_eq_false. by intros [x Hx].
Qed.

Lemma isdir_rmtree_under (d p : str) (fs : FS) :
  under d p -> isdir (rmtree_fs d fs) p = false.
Proof.
  intros Hp. unfold isdir. apply bool_decide_eq_false. intros Hne. apply Hne.
  apply map_empty. intros q. apply eq_None_not_Some. intros [x Hx].
  apply map_lookup_filter_Some in Hx as [Hq Hu]. cbn [fst] in Hu.
  rewrite (rmtree_fs_lookup_under d q fs) in Hq; [done|].
  by eapply under_trans.
Qed.

(** X13. An input that lies below the output directory is deleted by the
    clean build before it is looked at: the run generates nothing and prints
    nothing, not even a failure message, and afterwards neither the input
    nor any file below it exists. *)
Theorem input_below_output_directory_is_lost
        (E : Externals) (i s l c : option str) (fs : FS)
        (o : GeneratorOptions) (p : str) :
  GeneratorOptions_init E fs i s l c = OK o ->
  input_path o = Some p ->
  under (DIST_DIRECTORY_PATH E) p ->
  silkie E i s l c fs = (Returned, rmtree_fs (DIST_DIRECTORY_PATH E) fs, [])
  /\ forall q, q = p \/ under p q -> rmtree_fs (DIST_DIRECTORY_PATH E) fs !! q = None.
Proof.
  intros Hinit Hp Hu. split.
  - apply (silkie_skips E i s l c fs o p Hinit Hp).
    + by rewrite isfile_rmtree_under.
    + by apply isdir_rmtree_under.
  - intros q [->|Hq]; apply rmtree_fs_lookup_under; [done|by eapply under_trans].
Qed.

Lemma input_below_output_directory_is_lost_witness :
  GeneratorOptions_init sample_env inside_fs (Some (lit "dist/page.txt")) None None None
  = OK (mkOptions (Some (lit "dist/page.txt")) None (lit "en-CA") [] [] [] [])
  /\ under (DIST_DIRECTORY_PATH sample_env) (lit "dist/page.txt")
  /\ silkie sample_env (Some (lit "dist/page.txt")) None None None inside_fs
     = (Returned, rmtree_fs (DIST_DIRECTORY_PATH sample_env) inside_fs, [])
  /\ forall q, q = lit "dist/page.txt" \/ under (lit "dist/page.txt") q ->
               rmtree_fs (DIST_DIRECTORY_PATH sample_env) inside_fs !! q = None.
Proof.
  assert (GeneratorOptions_init sample_env inside_fs (Some (lit "dist/page.txt"))
                                None None None
          = OK (mkOptions (Some (lit "dist/page.txt")) None (lit "en-CA") [] [] [] []))
    as Hinit by (vm_compute; reflexivity).
  assert (under (DIST_DIRECTORY_PATH sample_env) (lit "dist/page.txt")) as Hu.
  { apply (bool_decide_eq_true _). by vm_compute. }
  split; [exact Hinit|]. split; [exact Hu|].
  exact (input_below_output_directory_is_lost sample_env _ _ _ _ inside_fs _
           (lit "dist/page.txt") Hinit eq_refl Hu).
Defined.

(** ** A run on one file *)






